(** * FreeboxOS-Ultra-Dashboard: telemetry normaliser, reboot scheduler and
      client reducer

    A shallow embedding of
    - [server/services/apiNormalizer.ts]  ([normalizeSystemInfo] and its
      display-name helpers),
    - [server/services/scheduler.ts]      ([RebootSchedulerService]),
    - [src/hooks/useConnectionWebSocket.ts] (the [onmessage] reducer) and
      [src/stores/systemStore.ts]         ([fetchSystemInfo]),
    followed by the properties of the specification, each proved or refuted
    on these definitions.

    Conventions of the embedding.
    - A JavaScript object used as a record of fields is a [gmap string jsval];
      reading a property that is not there gives [VUndefined].
    - A JavaScript number is an integer of [Z] (the telemetry readings are
      integral); [Math.round (s / n)] is rounding half up of the exact
      quotient.  The rounded mean is also given on rationals
      ([round_mean_Q]), for what it does to readings that are not integers.
    - A JavaScript string is a [string] of the bytes of its UTF-8 encoding.
    - An array is an array of [{id, name, value}] records, the only arrays
      the code looks into; a nested object that the code only copies is
      kept as its JSON text ([VObj]). *)

From Stdlib Require Import ZArith Ascii String List Lia Bool DecimalString DecimalPos.
From Stdlib Require Import QArith Qround.
From stdpp Require Import base option list gmap strings.

Set Warnings "-register-all".
Close Scope Q_scope.

(* ===================================================================== *)
(** ** JavaScript values and strings *)
(* ===================================================================== *)

Module JS.

(** A [{id, name, value}] record: the element type of the [sensors] and
    [fans] arrays ([NormalizedSensor] in the source).  The name may be
    missing in a raw record. *)
Record SensorRec (V : Type) : Type := MkSensor {
  id : string;
  name : option string;
  value : V
}.
Arguments MkSensor {V} _ _ _.
Arguments id {V} _.
Arguments name {V} _.
Arguments value {V} _.

Inductive jsval : Type :=
| VUndefined
| VNull
| VBool (b : bool)
| VNum (n : Z)
| VStr (s : string)
| VArr (items : list (SensorRec jsval))
| VObj (json : string).

Abbreviation Sensor := (SensorRec jsval).

(** [x != null]: neither [null] nor [undefined]. *)
Definition not_nullish (v : jsval) : bool :=
  match v with
  | VUndefined | VNull => false
  | _ => true
  end.

(** [o.k] *)
Definition get (o : gmap string jsval) (k : string) : jsval :=
  default VUndefined (o !! k).

(** [Array.isArray(v)] ([v && ...] adds nothing: an array is truthy). *)
Definition as_array (v : jsval) : option (list Sensor) :=
  match v with
  | VArr l => Some l
  | _ => None
  end.

(** [Math.round(s / n)] for an integer [s] and a positive count [n]:
    [floor (s / n + 1/2)]. *)
Definition round_div (s : Z) (n : Z) : Z := ((2 * s + n) / (2 * n))%Z.

(** The numbers among a list of values, when all of them are numbers. *)
Fixpoint all_numbers (l : list jsval) : option (list Z) :=
  match l with
  | [] => Some []
  | VNum n :: r => option_map (cons n) (all_numbers r)
  | _ :: r => None
  end.

Definition sumZ (l : list Z) : Z := fold_left Z.add l 0%Z.

(** [Math.round(x)] of a rational: [floor (x + 1/2)]. *)
Definition round_Q (x : Q) : Z := Qfloor (x + (1 # 2))%Q.

Definition sumQ (l : list Q) : Q := fold_left Qplus l 0%Q.

(** [Math.round(l.reduce((a, b) => a + b, 0) / l.length)] of rationals. *)
Definition round_mean_Q (l : list Q) : Z :=
  round_Q (sumQ l / inject_Z (Z.of_nat (length l)))%Q.

(** *** Strings *)

Definition code (c : ascii) : nat := nat_of_ascii c.

Definition in_range (lo hi : nat) (c : ascii) : bool :=
  (Nat.leb lo (code c)) && (Nat.leb (code c) hi).

Definition is_lower (c : ascii) : bool := in_range 97 122 c.
Definition is_upper (c : ascii) : bool := in_range 65 90 c.
Definition is_digit (c : ascii) : bool := in_range 48 57 c.

(** [\w] of a regular expression without the [u] flag: [A-Za-z0-9_]. *)
Definition is_word (c : ascii) : bool :=
  is_lower c || is_upper c || is_digit c || Nat.eqb (code c) 95.

(** [toUpperCase] on one character matched by [\w]. *)
Definition upper (c : ascii) : ascii :=
  if is_lower c then ascii_of_nat (code c - 32) else c.

(** White space of one byte: TAB, LF, VT, FF, CR, SPACE. *)
Definition ws1 (c : ascii) : bool :=
  in_range 9 13 c || Nat.eqb (code c) 32.

(** White space of two bytes: U+00A0. *)
Definition ws2 (c1 c2 : ascii) : bool :=
  Nat.eqb (code c1) 194 && Nat.eqb (code c2) 160.

(** White space of three bytes: U+1680, U+2000..U+200A, U+2028, U+2029,
    U+202F, U+205F, U+3000, U+FEFF. *)
Definition ws3 (c1 c2 c3 : ascii) : bool :=
  let a := code c1 in let b := code c2 in let c := code c3 in
  (Nat.eqb a 225 && Nat.eqb b 154 && Nat.eqb c 128)
  || (Nat.eqb a 226 && Nat.eqb b 128
      && (in_range 128 138 c3 || Nat.eqb c 168 || Nat.eqb c 169 || Nat.eqb c 175))
  || (Nat.eqb a 226 && Nat.eqb b 129 && Nat.eqb c 159)
  || (Nat.eqb a 227 && Nat.eqb b 128 && Nat.eqb c 128)
  || (Nat.eqb a 239 && Nat.eqb b 187 && Nat.eqb c 191).

(** Drop every leading white-space character ([\s*] at the start). *)
Fixpoint skip_ws (s : string) : string :=
  match s with
  | EmptyString => s
  | String c1 r1 =>
    if ws1 c1 then skip_ws r1 else
    match r1 with
    | EmptyString => s
    | String c2 r2 =>
      if ws2 c1 c2 then skip_ws r2 else
      match r2 with
      | EmptyString => s
      | String c3 r3 => if ws3 c1 c2 c3 then skip_ws r3 else s
      end
    end
  end.

Definition is_empty (s : string) : bool :=
  match s with EmptyString => true | _ => false end.

(** Drop the trailing white space. *)
Fixpoint trim_end (s : string) : string :=
  match s with
  | EmptyString => EmptyString
  | String c r => if is_empty (skip_ws s) then EmptyString else String c (trim_end r)
  end.

(** [s.trim()] *)
Definition trim (s : string) : string := trim_end (skip_ws s).

(** A prefix given as the bytes accepted at each position. *)
Fixpoint strip_classes (pat : list (list nat)) (s : string) : option string :=
  match pat with
  | [] => Some s
  | cls :: pat' =>
    match s with
    | EmptyString => None
    | String c r =>
      if existsb (Nat.eqb (code c)) cls then strip_classes pat' r else None
    end
  end.

(** [s.replace(/^<pat>\s+/i, '')]: the prefix, then at least one white-space
    character, are removed; a string that does not start so is unchanged. *)
Definition strip_prefix_ws (pat : list (list nat)) (s : string) : string :=
  match strip_classes pat s with
  | Some r => if String.eqb (skip_ws r) r then s else skip_ws r
  | None => s
  end.

(** The letters of an ASCII word, each in both cases (the [i] flag). *)
Definition ci (w : string) : list (list nat) :=
  map (fun c => [code (upper c); code c]) (list_ascii_of_string w).

(** [/^Température\s+/i]: the letter e-acute is C3 A9, its capital C3 89. *)
Definition pat_temperature_fr : list (list nat) :=
  ci "temp" ++ [[195]; [169; 137]] ++ ci "rature".

(** [/^Temperature\s+/i] *)
Definition pat_temperature : list (list nat) := ci "temperature".

(** [s.replace(pat, rep)] with a string pattern: the first occurrence only. *)
Fixpoint replace_first (pat rep s : string) : string :=
  if String.prefix pat s then rep +:+ String.substring (String.length pat) (String.length s - String.length pat) s
  else match s with
       | EmptyString => EmptyString
       | String c r => String c (replace_first pat rep r)
       end.

(** [s.replace(/_/g, ' ')] *)
Fixpoint underscores_to_spaces (s : string) : string :=
  match s with
  | EmptyString => EmptyString
  | String c r =>
    String (if Nat.eqb (code c) 95 then " "%char else c) (underscores_to_spaces r)
  end.

(** [s.replace(/\b\w/g, l => l.toUpperCase())]: a word character that does
    not follow a word character is put in upper case. *)
Fixpoint capitalize_from (after_word : bool) (s : string) : string :=
  match s with
  | EmptyString => EmptyString
  | String c r =>
    String (if is_word c && negb after_word then upper c else c)
           (capitalize_from (is_word c) r)
  end.

Definition capitalize_words (s : string) : string := capitalize_from false s.

(** A static table [Record<string, string>], read at one of its keys. *)
Fixpoint table_lookup (t : list (string * string)) (k : string) : option string :=
  match t with
  | [] => None
  | (k', v) :: t' => if String.eqb k k' then Some v else table_lookup t' k
  end.

(** The property names that an object literal inherits from
    [Object.prototype]: at these keys [o[k]] is a function or an object, and
    not [undefined], when [o] has no such key of its own. *)
Definition inherited_keys : list string :=
  [ "constructor"; "__defineGetter__"; "__defineSetter__"; "hasOwnProperty";
    "__lookupGetter__"; "__lookupSetter__"; "isPrototypeOf";
    "propertyIsEnumerable"; "toString"; "valueOf"; "__proto__";
    "toLocaleString" ]%string.

Definition inherited_key (k : string) : bool :=
  existsb (String.eqb k) inherited_keys.

(** Truthiness of a string that may be missing. *)
Definition truthy_name (n : option string) : option string :=
  match n with
  | Some s => if is_empty s then None else Some s
  | None => None
  end.

End JS.

(* ===================================================================== *)
(** ** server/services/apiNormalizer.ts *)
(* ===================================================================== *)

Module ApiNormalizer.
Import JS.

Definition SENSOR_NAMES : list (string * string) :=
  [ ("temp_cpu0", "CPU 0"); ("temp_cpu1", "CPU 1");
    ("temp_cpu2", "CPU 2"); ("temp_cpu3", "CPU 3");
    ("temp_cpum", "CPU"); ("temp_cpub", "CPU Box"); ("temp_sw", "Switch");
    ("temp_hdd", "Disque"); ("temp_hdd0", "Disque 1"); ("temp_hdd1", "Disque 2");
    ("t1", "CPU"); ("t2", "CPU Box"); ("t3", "Switch");
    ("cpu_ap", "CPU"); ("cpu_cp", "CPU Box"); ("switch", "Switch") ]%string.

Definition FAN_NAMES : list (string * string) :=
  [ ("fan0_speed", "Ventilateur 1"); ("fan1_speed", "Ventilateur 2");
    ("fan0", "Ventilateur 1"); ("fan1", "Ventilateur 2");
    ("main", "Ventilateur"); ("fan", "Ventilateur");
    ("fan_rpm", "Ventilateur") ]%string.

(** The tables are read at their own keys; what [SENSOR_NAMES[id]] inherits
    from [Object.prototype] for an id such as ["constructor"] is left out. *)
Definition getSensorDisplayName (id : string) (originalName : option string) : string :=
  match table_lookup SENSOR_NAMES id with
  | Some n => n
  | None =>
    match truthy_name originalName with
    | Some n =>
      trim (strip_prefix_ws pat_temperature (strip_prefix_ws pat_temperature_fr n))
    | None =>
      capitalize_words (underscores_to_spaces (replace_first "temp_" "" id))
    end
  end.

Definition getFanDisplayName (id : string) (originalName : option string) : string :=
  match table_lookup FAN_NAMES id with
  | Some n => n
  | None =>
    match truthy_name originalName with
    | Some n => n
    | None =>
      capitalize_words (underscores_to_spaces (replace_first "_speed" "" id))
    end
  end.

Section Normalizer.

(** What JavaScript's implicit conversions make of
    [Math.round(l.reduce((a, b) => a + b, 0) / l.length)] when some entry of
    [l] is not a number.  The embedding does not interpret these conversions:
    every statement below holds whatever they produce. *)
Variable coerced_round_mean : list jsval -> jsval.

(** [Math.round(l.reduce((a, b) => a + b, 0) / l.length)] *)
Definition round_mean (l : list jsval) : jsval :=
  match all_numbers l with
  | Some ns => VNum (round_div (sumZ ns) (Z.of_nat (length ns)))
  | None => coerced_round_mean l
  end.

(** [rawSensors.map(sensor => ({id, name: getSensorDisplayName(..), value}))] *)
Definition normalize_sensor (sensor : Sensor) : Sensor :=
  MkSensor (id sensor) (Some (getSensorDisplayName (id sensor) (name sensor)))
           (value sensor).

Definition normalize_fan (fan : Sensor) : Sensor :=
  MkSensor (id fan) (Some (getFanDisplayName (id fan) (name fan))) (value fan).

Definition id_is (s : Sensor) (k : string) : bool := String.eqb (id s) k.

(** One turn of the loop [for (const sensor of rawSensors)]. *)
Definition extract_sensor (result : gmap string jsval) (sensor : Sensor)
  : gmap string jsval :=
  let r1 := if String.prefix "temp_" (id sensor)
            then <[id sensor := value sensor]> result else result in
  let r2 := if id_is sensor "t1" || id_is sensor "cpu_ap"
            then <["temp_cpum" := value sensor]> r1 else r1 in
  let r3 := if id_is sensor "t2" || id_is sensor "cpu_cp"
            then <["temp_cpub" := value sensor]> r2 else r2 in
  if id_is sensor "t3" || id_is sensor "switch"
  then <["temp_sw" := value sensor]> r3 else r3.

(** [[result.temp_cpu0, result.temp_cpu1, result.temp_cpu2, result.temp_cpu3]
    .filter((t): t is number => t != null)] *)
Definition core_temps (result : gmap string jsval) : list jsval :=
  List.filter not_nullish
    [get result "temp_cpu0"; get result "temp_cpu1";
     get result "temp_cpu2"; get result "temp_cpu3"].

(** The block [if (result.temp_cpu0 != null && result.temp_cpum == null)]. *)
Definition derive_cpum (result : gmap string jsval) : gmap string jsval :=
  if not_nullish (get result "temp_cpu0") && negb (not_nullish (get result "temp_cpum"))
  then
    let coreTemps := core_temps result in
    if Nat.ltb 0 (length coreTemps)
    then <["temp_cpum" := round_mean coreTemps]> result
    else result
  else result.

(** [if (data.k != null) sensors.push({id: k, name, value: data.k})] *)
Definition push_flat (data : gmap string jsval) (k nm : string)
    (sensors : list Sensor) : list Sensor :=
  if not_nullish (get data k)
  then sensors ++ [MkSensor k (Some nm) (get data k)]
  else sensors.

(** The [else] branch: the array built from the flat fields. *)
Definition legacy_sensors (data : gmap string jsval) : list Sensor :=
  let s0 : list Sensor := [] in
  let s1 :=
    if not_nullish (get data "temp_cpu0")
    then push_flat data "temp_cpu3" "CPU 3"
           (push_flat data "temp_cpu2" "CPU 2"
              (push_flat data "temp_cpu1" "CPU 1"
                 (push_flat data "temp_cpu0" "CPU 0" s0)))
    else s0 in
  push_flat data "temp_sw" "Switch"
    (push_flat data "temp_cpub" "CPU Box"
       (push_flat data "temp_cpum" "CPU" s1)).

Definition is_main_fan (f : Sensor) : bool :=
  id_is f "fan0_speed" || id_is f "main" || id_is f "fan0" || id_is f "fan".

(** [rawFans.find(..) || rawFans[0]] *)
Definition main_fan (rawFans : list Sensor) : option Sensor :=
  match List.find is_main_fan rawFans with
  | Some f => Some f
  | None => head rawFans
  end.

Definition normalize_sensors_part (data result : gmap string jsval)
  : gmap string jsval :=
  match as_array (get data "sensors") with
  | Some rawSensors =>
    let result := <["sensors" := VArr (map normalize_sensor rawSensors)]> result in
    let result := fold_left extract_sensor rawSensors result in
    derive_cpum result
  | None =>
    let sensors := legacy_sensors data in
    if Nat.ltb 0 (length sensors)
    then <["sensors" := VArr sensors]> result
    else result
  end.

Definition normalize_fans_part (data result : gmap string jsval)
  : gmap string jsval :=
  match as_array (get data "fans") with
  | Some rawFans =>
    let result := <["fans" := VArr (map normalize_fan rawFans)]> result in
    match main_fan rawFans with
    | Some mainFan => <["fan_rpm" := value mainFan]> result
    | None => result
    end
  | None =>
    if not_nullish (get data "fan_rpm")
    then <["fans" := VArr [MkSensor "fan_rpm" (Some "Ventilateur"%string)
                                    (get data "fan_rpm")]]> result
    else result
  end.

Definition normalizeSystemInfo (data : gmap string jsval) : gmap string jsval :=
  let result := data in
  let result := normalize_sensors_part data result in
  normalize_fans_part data result.

End Normalizer.

End ApiNormalizer.

(* ===================================================================== *)
(** ** server/services/scheduler.ts *)
(* ===================================================================== *)

Module Scheduler.

Record RebootSchedule : Type := MkSchedule {
  enabled : bool;
  days : list Z;      (* 0-6 (Sun-Sat) *)
  time : string       (* "HH:MM" *)
}.

(** [Partial<RebootSchedule>] *)
Record PartialSchedule : Type := MkPartial {
  p_enabled : option bool;
  p_days : option (list Z);
  p_time : option string
}.

Definition DEFAULT_SCHEDULE : RebootSchedule :=
  {| enabled := false; days := []; time := "03:00" |}.

(** [{ ...base, ...over }] *)
Definition merge (base : RebootSchedule) (over : PartialSchedule) : RebootSchedule :=
  {| enabled := default (enabled base) (p_enabled over);
     days := default (days base) (p_days over);
     time := default (time base) (p_time over) |}.

(** What the file [.reboot_schedule.json] holds: text that does not parse,
    or a JSON object with some of the fields. *)
Inductive file_content : Type :=
| Garbage
| Json (fields : PartialSchedule).

Definition to_json (s : RebootSchedule) : file_content :=
  Json {| p_enabled := Some (enabled s); p_days := Some (days s);
          p_time := Some (time s) |}.

(** The durable storage: the file, if it exists, and whether
    [fs.writeFileSync] succeeds on it. *)
Record Disk : Type := MkDisk {
  file : option file_content;
  writable : bool
}.

(** The service object with the file system it writes to.  [task] is the
    cron expression of the running [cron.ScheduledTask], if there is one.
    Console output is not kept. *)
Record Service : Type := MkService {
  schedule : RebootSchedule;
  task : option string;
  disk : Disk
}.

(** [s.split(':')] *)
Fixpoint split_colon (cur : string) (s : string) : list string :=
  match s with
  | EmptyString => [cur]
  | String c r =>
    if Ascii.eqb c ":"%char then cur :: split_colon EmptyString r
    else split_colon (cur +:+ String c EmptyString) r
  end.

(** [String(n)] for an integer. *)
Definition string_of_Z (n : Z) : string := NilZero.string_of_int (Z.to_int n).

(** [l.join(',')] *)
Fixpoint join_comma (l : list Z) : string :=
  match l with
  | [] => EmptyString
  | [n] => string_of_Z n
  | n :: r => string_of_Z n +:+ "," +:+ join_comma r
  end.

(** A destructured array element inside a template string. *)
Definition part (parts : list string) (i : nat) : string :=
  nth i parts "undefined"%string.

Definition cron_expression (s : RebootSchedule) : string :=
  let parts := split_colon EmptyString (time s) in
  let hour := part parts 0 in
  let minute := part parts 1 in
  minute +:+ " " +:+ hour +:+ " * * " +:+ join_comma (days s).

Section Service.

(** [cron.validate] of node-cron. *)
Variable cron_validate : string -> bool.

Definition loadSchedule (d : Disk) : RebootSchedule :=
  match file d with
  | Some (Json fields) => merge DEFAULT_SCHEDULE fields
  | Some Garbage => DEFAULT_SCHEDULE
  | None => DEFAULT_SCHEDULE
  end.

Definition saveSchedule (st : Service) : Service :=
  if writable (disk st)
  then {| schedule := schedule st; task := task st;
          disk := {| file := Some (to_json (schedule st));
                     writable := writable (disk st) |} |}
  else st.

Definition getSchedule (st : Service) : RebootSchedule := schedule st.

Definition updateCronJob (st : Service) : Service :=
  (* Stop existing task *)
  let st := {| schedule := schedule st; task := None; disk := disk st |} in
  if negb (enabled (schedule st)) || Nat.eqb (length (days (schedule st))) 0
  then st
  else
    let cronExpression := cron_expression (schedule st) in
    if negb (cron_validate cronExpression)
    then st
    else {| schedule := schedule st; task := Some cronExpression; disk := disk st |}.

Definition updateSchedule (st : Service) (newSchedule : PartialSchedule)
  : Service * RebootSchedule :=
  let st := {| schedule := merge (schedule st) newSchedule;
               task := task st; disk := disk st |} in
  let st := saveSchedule st in
  let st := updateCronJob st in
  (st, schedule st).

(** The constructor, on a given file system. *)
Definition new_service (d : Disk) : Service :=
  updateCronJob {| schedule := loadSchedule d; task := None; disk := d |}.

End Service.

End Scheduler.

(* ===================================================================== *)
(** ** src/hooks/useConnectionWebSocket.ts and src/stores/systemStore.ts *)
(* ===================================================================== *)

Module Client.
Import JS.

(** A field that is missing is [None]; written into the snapshot it is
    [undefined]. *)
Record SystemStatusData : Type := MkSystemStatus {
  temp_cpu0 : option Z;
  temp_cpu1 : option Z;
  temp_cpu2 : option Z;
  temp_cpu3 : option Z;
  temp_cpum : option Z;
  temp_cpub : option Z;
  temp_sw : option Z;
  fan_rpm : option Z;
  uptime_val : option Z
}.

(** Modelled from the spec: [ConnectionStatus] of [types/api], whose
    declaration is not among the sources.  The reducer reads the two rates
    and copies the rest. *)
Record ConnectionStatus : Type := MkConnectionStatus {
  rate_down : Z;
  rate_up : Z;
  status_rest : gmap string jsval
}.

Inductive WebSocketMessage : Type :=
| ConnectionStatusMsg (data : option ConnectionStatus)
| SystemStatusMsg (data : option SystemStatusData)
| OtherMsg.   (* another discriminant, or text that [JSON.parse] rejects *)

(** The points pushed on the connection history. *)
Record NetworkStat : Type := MkNetworkStat {
  ns_time : string;
  download : Z;
  upload : Z
}.

Record TemperatureHistoryPoint : Type := MkPoint {
  time : string;
  cpuM : jsval;   (* temp_cpum - CPU main *)
  cpuB : jsval;   (* temp_cpub - CPU box *)
  sw : jsval      (* temp_sw - Switch *)
}.

(** Modelled from the spec: the state of [stores/connectionStore], whose
    declaration is not among the sources: the three fields the reducer
    writes, and the others, which [setState] keeps. *)
Record ConnectionState : Type := MkConnectionState {
  status : option ConnectionStatus;
  conn_error : option string;
  history : list NetworkStat;
  conn_rest : gmap string jsval
}.

Record SystemState : Type := MkSystemState {
  info : option (gmap string jsval);
  schedule : option Scheduler.RebootSchedule;
  temperatureHistory : list TemperatureHistoryPoint;
  isLoading : bool;
  error : option string
}.

(** [create<SystemState>(...)]: the store as created. *)
Definition initial_system_state : SystemState :=
  {| info := None; schedule := None; temperatureHistory := [];
     isLoading := false; error := None |}.

Record Stores : Type := MkStores {
  connection : ConnectionState;
  system : SystemState
}.

(** [l.slice(-n)]: the last [n] elements. *)
Definition slice_last {A : Type} (n : nat) (l : list A) : list A :=
  skipn (length l - n) l.

(** [[...l.slice(-59), p]] *)
Definition push_bounded {A : Type} (l : list A) (p : A) : list A :=
  slice_last 59 l ++ [p].

(** [l.filter((t): t is number => t != null)] on optional numbers. *)
Fixpoint present (l : list (option Z)) : list Z :=
  match l with
  | [] => []
  | Some t :: r => t :: present r
  | None :: r => present r
  end.

Definition of_opt (o : option Z) : jsval :=
  match o with
  | Some n => VNum n
  | None => VUndefined
  end.

(** [a ?? b] *)
Definition nullish_or {A : Type} (a b : option A) : option A :=
  match a with
  | Some x => Some x
  | None => b
  end.

(** Lines 88-101: the main CPU temperature of a [system_status] message. *)
Definition message_cpuM (systemData : SystemStatusData) : option Z :=
  match temp_cpu0 systemData with
  | Some _ =>
    (* Ultra: average of 4 CPU cores *)
    let temps := present [temp_cpu0 systemData; temp_cpu1 systemData;
                          temp_cpu2 systemData; temp_cpu3 systemData] in
    if Nat.ltb 0 (length temps)
    then Some (round_div (sumZ temps) (Z.of_nat (length temps)))
    else None
  | None => temp_cpum systemData
  end.

(** The fields of a message that its main CPU temperature is computed
    from, as readings that need not be integers. *)
Record CpuReadings : Type := MkCpuReadings {
  q_cpu0 : option Q;
  q_cpu1 : option Q;
  q_cpu2 : option Q;
  q_cpu3 : option Q;
  q_cpum : option Q
}.

(** [l.filter((t): t is number => t != null)] on these readings. *)
Fixpoint present_Q (l : list (option Q)) : list Q :=
  match l with
  | [] => []
  | Some t :: r => t :: present_Q r
  | None :: r => present_Q r
  end.

(** Lines 88-101 on these readings. *)
Definition message_cpuM_Q (systemData : CpuReadings) : option Q :=
  match q_cpu0 systemData with
  | Some _ =>
    (* Ultra: average of 4 CPU cores *)
    let temps := present_Q [q_cpu0 systemData; q_cpu1 systemData;
                            q_cpu2 systemData; q_cpu3 systemData] in
    if Nat.ltb 0 (length temps)
    then Some (inject_Z (round_mean_Q temps))
    else None
  | None => q_cpum systemData
  end.

(** Lines 115-126: [{...state.info, temp_cpu0: ..., ...}]. *)
Definition merge_info (prev : gmap string jsval) (systemData : SystemStatusData)
  : gmap string jsval :=
  let cpuM := message_cpuM systemData in
  <["uptime_val" := match uptime_val systemData with
                    | Some u => VNum u
                    | None => get prev "uptime_val"
                    end]>
  (<["fan_rpm" := of_opt (fan_rpm systemData)]>
  (<["temp_sw" := of_opt (temp_sw systemData)]>
  (<["temp_cpub" := of_opt (temp_cpub systemData)]>
  (<["temp_cpum" := of_opt (nullish_or (temp_cpum systemData) cpuM)]>
  (<["temp_cpu3" := of_opt (temp_cpu3 systemData)]>
  (<["temp_cpu2" := of_opt (temp_cpu2 systemData)]>
  (<["temp_cpu1" := of_opt (temp_cpu1 systemData)]>
  (<["temp_cpu0" := of_opt (temp_cpu0 systemData)]> prev)))))))).

(** The updater given to [useSystemStore.setState]. *)
Definition reduce_system_status (now : string) (systemData : SystemStatusData)
    (state : SystemState) : SystemState :=
  let cpuM := message_cpuM systemData in
  let newPoint := {| time := now; cpuM := of_opt cpuM;
                     cpuB := of_opt (temp_cpub systemData);
                     sw := of_opt (temp_sw systemData) |} in
  let updatedInfo :=
    match info state with
    | Some i => Some (merge_info i systemData)
    | None => None
    end in
  {| info := updatedInfo;
     schedule := schedule state;
     temperatureHistory := push_bounded (temperatureHistory state) newPoint;
     isLoading := isLoading state;
     error := error state |}.

(** The updater given to [useConnectionStore.setState]. *)
Definition reduce_connection_status (now : string) (st : ConnectionStatus)
    (state : ConnectionState) : ConnectionState :=
  let newPoint := {| ns_time := now;
                     download := round_div (rate_down st) 1024;
                     upload := round_div (rate_up st) 1024 |} in
  {| status := Some st;
     conn_error := None;
     history := push_bounded (history state) newPoint;
     conn_rest := conn_rest state |}.

(** [ws.onmessage], at the local time [now]. *)
Definition onmessage (now : string) (message : WebSocketMessage) (s : Stores)
  : Stores :=
  match message with
  | ConnectionStatusMsg (Some st) =>
    {| connection := reduce_connection_status now st (connection s);
       system := system s |}
  | SystemStatusMsg (Some systemData) =>
    {| connection := connection s;
       system := reduce_system_status now systemData (system s) |}
  | _ => s
  end.

Section FetchSystemInfo.

Variable coerced_round_mean : list jsval -> jsval.

Definition is_cpu_sensor (s : Sensor) : bool :=
  String.prefix "temp_cpu" (id s) || String.prefix "cpu" (id s)
  || String.eqb (id s) "t1".

Definition is_sw_sensor (s : Sensor) : bool :=
  String.eqb (id s) "temp_sw" || String.eqb (id s) "sw" || String.eqb (id s) "t2".

Definition is_cpub_sensor (s : Sensor) : bool :=
  String.eqb (id s) "temp_cpub" || String.eqb (id s) "cpub".

(** [if (x == null) x = y] *)
Definition or_if_nullish (x y : jsval) : jsval :=
  if not_nullish x then x else y.

(** Lines 231-274 of the store: the point built from a fetched [info]. *)
Definition fetched_point (now : string) (info : gmap string jsval)
  : TemperatureHistoryPoint :=
  let sensors :=
    match as_array (get info "sensors") with
    | Some l => l
    | None => []
    end in
  (* First try sensors array (API v8+) *)
  let cpuSensors := List.filter is_cpu_sensor sensors in
  let cpuM :=
    if Nat.ltb 0 (length cpuSensors)
    then ApiNormalizer.round_mean coerced_round_mean (map value cpuSensors)
    else VUndefined in
  let sw :=
    match List.find is_sw_sensor sensors with
    | Some s => value s
    | None => VUndefined
    end in
  let cpuB :=
    match List.find is_cpub_sensor sensors with
    | Some s => value s
    | None => VUndefined
    end in
  (* Fallback to legacy flat fields if sensors array didn't provide data *)
  let cpuM :=
    if not_nullish cpuM then cpuM
    else if not_nullish (get info "temp_cpu0")
    then
      let temps := List.filter not_nullish
        [get info "temp_cpu0"; get info "temp_cpu1";
         get info "temp_cpu2"; get info "temp_cpu3"] in
      if Nat.ltb 0 (length temps)
      then ApiNormalizer.round_mean coerced_round_mean temps
      else VUndefined
    else if not_nullish (get info "temp_cpum")
    then get info "temp_cpum"
    else cpuM in
  let sw := or_if_nullish sw (get info "temp_sw") in
  let cpuB := or_if_nullish cpuB (get info "temp_cpub") in
  {| time := now; cpuM := cpuM; cpuB := cpuB; sw := sw |}.

(** What [api.get] resolves to, or that it rejects. *)
Inductive ApiResponse : Type :=
| Success (result : gmap string jsval)
| Failure (message : option string)
| Rejected.

(** [fetchSystemInfo] up to its [await]. *)
Definition fetchSystemInfo_start (state : SystemState) : SystemState :=
  {| info := info state; schedule := schedule state;
     temperatureHistory := temperatureHistory state;
     isLoading := true; error := None |}.

(** [fetchSystemInfo] from its [await] on. *)
Definition fetchSystemInfo_resume (now : string) (response : ApiResponse)
    (state : SystemState) : SystemState :=
  match response with
  | Success i =>
    let newPoint := fetched_point now i in
    (* Keep last 60 points *)
    let newHistory := push_bounded (temperatureHistory state) newPoint in
    {| info := Some i; schedule := schedule state;
       temperatureHistory := newHistory;
       isLoading := false; error := error state |}
  | Failure message =>
    {| info := info state; schedule := schedule state;
       temperatureHistory := temperatureHistory state;
       isLoading := false;
       error := Some (default "Failed to fetch system info"%string
                              (truthy_name message)) |}
  | Rejected =>
    {| info := info state; schedule := schedule state;
       temperatureHistory := temperatureHistory state;
       isLoading := false;
       error := Some "Failed to fetch system info"%string |}
  end.

(** What happens to the two stores, one event at a time. *)
Inductive event : Type :=
| Message (now : string) (message : WebSocketMessage)
| FetchStart
| FetchResume (now : string) (response : ApiResponse).

Definition step (s : Stores) (e : event) : Stores :=
  match e with
  | Message now message => onmessage now message s
  | FetchStart =>
    {| connection := connection s; system := fetchSystemInfo_start (system s) |}
  | FetchResume now response =>
    {| connection := connection s;
       system := fetchSystemInfo_resume now response (system s) |}
  end.

Definition run (s : Stores) (events : list event) : Stores :=
  fold_left step events s.

End FetchSystemInfo.

End Client.

(* ===================================================================== *)
(** ** The inputs of the scenarios, and the rules as the specification
       words them *)
(* ===================================================================== *)

Module Scenario.
Import JS ApiNormalizer.

(** [{temp_cpu0:40, temp_cpu1:42, temp_cpu2:41, temp_cpu3:43}] *)
Definition flat_cores : gmap string jsval :=
  <["temp_cpu0" := VNum 40]> (<["temp_cpu1" := VNum 42]>
    (<["temp_cpu2" := VNum 41]> (<["temp_cpu3" := VNum 43]> ∅))).

(** The same four readings in the array shape. *)
Definition array_cores : gmap string jsval :=
  {[ "sensors" := VArr [MkSensor "temp_cpu0" None (VNum 40);
                        MkSensor "temp_cpu1" None (VNum 42);
                        MkSensor "temp_cpu2" None (VNum 41);
                        MkSensor "temp_cpu3" None (VNum 43)] ]}.

(** [{sensors: []}] *)
Definition empty_sensors : gmap string jsval := {[ "sensors" := VArr [] ]}.

(** [{temp_cpu1: 42}] *)
Definition lone_core1 : gmap string jsval := {[ "temp_cpu1" := VNum 42 ]}.

(** [{sensors:[{id:"fan0_speed", name:"", value:1200}]}] *)
Definition fan_among_sensors : gmap string jsval :=
  {[ "sensors" := VArr [MkSensor "fan0_speed" (Some ""%string) (VNum 1200)] ]}.

(** [{fans:[{id:"fan0_speed", name:"", value:1200}]}] *)
Definition fan_among_fans : gmap string jsval :=
  {[ "fans" := VArr [MkSensor "fan0_speed" (Some ""%string) (VNum 1200)] ]}.

(** An oracle for the runs below, none of which reaches it. *)
Definition no_coercion : list jsval -> jsval := fun _ => VUndefined.

(** The output "contains no empty [sensors] or [fans] array". *)
Definition no_empty_array (out : gmap string jsval) : Prop :=
  get out "sensors" <> VArr [] /\ get out "fans" <> VArr [].

(** "Source data exists" in the flat shape: one of the seven flat
    temperature fields is present. *)
Definition flat_temperature_keys : list string :=
  ["temp_cpu0"; "temp_cpu1"; "temp_cpu2"; "temp_cpu3";
   "temp_cpum"; "temp_cpub"; "temp_sw"]%string.

Definition some_flat_temperature (data : gmap string jsval) : bool :=
  existsb (fun k => not_nullish (get data k)) flat_temperature_keys.

(** The output "has a [sensors] array with at least one element". *)
Definition has_sensors (out : gmap string jsval) : Prop :=
  exists s l, get out "sensors" = VArr (s :: l).

(** One entry for a flat field that is present, none otherwise, with the
    name of the display-name lookup. *)
Definition flat_entry (data : gmap string jsval) (k : string) : list Sensor :=
  if not_nullish (get data k)
  then [MkSensor k (Some (getSensorDisplayName k None)) (get data k)]
  else [].

(** The rule as the specification words it: one entry per present flat
    field, cores first, then main CPU, CPU box, switch. *)
Definition spec_flat_sensors (data : gmap string jsval) : list Sensor :=
  flat_entry data "temp_cpu0" ++ flat_entry data "temp_cpu1"
  ++ flat_entry data "temp_cpu2" ++ flat_entry data "temp_cpu3"
  ++ flat_entry data "temp_cpum" ++ flat_entry data "temp_cpub"
  ++ flat_entry data "temp_sw".

(** The same with the cores behind the presence of [temp_cpu0]. *)
Definition gated_flat_sensors (data : gmap string jsval) : list Sensor :=
  (if not_nullish (get data "temp_cpu0")
   then flat_entry data "temp_cpu0" ++ flat_entry data "temp_cpu1"
        ++ flat_entry data "temp_cpu2" ++ flat_entry data "temp_cpu3"
   else [])
  ++ flat_entry data "temp_cpum" ++ flat_entry data "temp_cpub"
  ++ flat_entry data "temp_sw".

(** The fields compared by the idempotence property. *)
Definition compared_keys : list string :=
  ["sensors"; "fans"; "temp_cpu0"; "temp_cpu1"; "temp_cpu2"; "temp_cpu3";
   "temp_cpum"; "temp_cpub"; "temp_sw"; "fan_rpm"]%string.

Definition same_on (keys : list string) (a b : gmap string jsval) : Prop :=
  Forall (fun k => get a k = get b k) keys.

(** *** The loop over the sensors, key by key *)

(** Whether the turn of the loop for [s] assigns [result[k]]. *)
Definition writes_key (s : Sensor) (k : string) : bool :=
  (String.prefix "temp_" (id s) && String.eqb (id s) k)
  || ((id_is s "t1" || id_is s "cpu_ap") && String.eqb k "temp_cpum")
  || ((id_is s "t2" || id_is s "cpu_cp") && String.eqb k "temp_cpub")
  || ((id_is s "t3" || id_is s "switch") && String.eqb k "temp_sw").

(** The value under [k] after the loop over [l], from the value before. *)
Fixpoint last_write (l : list Sensor) (k : string) (before : option jsval)
  : option jsval :=
  match l with
  | [] => before
  | s :: l' => last_write l' k (if writes_key s k then Some (value s) else before)
  end.

(** Two arrays with the same ids and values, whatever the names. *)
Definition same_readings (a b : jsval) : Prop :=
  exists la lb, a = VArr la /\ b = VArr lb
                /\ map id la = map id lb /\ map value la = map value lb.

(** The input on which a second pass differs from the first: flat, with
    [temp_cpu0] and without [temp_cpum]. *)
Definition flat_cores_without_cpum (data : gmap string jsval) : bool :=
  match as_array (get data "sensors") with
  | Some _ => false
  | None => not_nullish (get data "temp_cpu0")
            && negb (not_nullish (get data "temp_cpum"))
  end.

(** Two objects with the same flat fields (the keys in [temp_]). *)
Definition temp_agree (a b : gmap string jsval) : Prop :=
  forall k, String.prefix "temp_" k = true -> a !! k = b !! k.

(** A sensor name that still starts with a temperature prefix once cleaned. *)
Definition doubly_prefixed_name : string := "Temperature Température CPU".

(** *** The client reducer *)

(** The rule for the main CPU temperature as the specification words it:
    a present [temp_cpum] first; only without it, the rounded mean of the
    per-core values that are present. *)
Definition spec_main_cpu (d : Client.SystemStatusData) : option Z :=
  match Client.temp_cpum d with
  | Some m => Some m
  | None =>
    let temps := Client.present [Client.temp_cpu0 d; Client.temp_cpu1 d;
                                 Client.temp_cpu2 d; Client.temp_cpu3 d] in
    if Nat.ltb 0 (length temps)
    then Some (round_div (sumZ temps) (Z.of_nat (length temps)))
    else None
  end.

(** A [system_status] message seen as an object: its field under a key. *)
Definition message_get (d : Client.SystemStatusData) (k : string) : option Z :=
  if String.eqb k "temp_cpu0" then Client.temp_cpu0 d
  else if String.eqb k "temp_cpu1" then Client.temp_cpu1 d
  else if String.eqb k "temp_cpu2" then Client.temp_cpu2 d
  else if String.eqb k "temp_cpu3" then Client.temp_cpu3 d
  else if String.eqb k "temp_cpum" then Client.temp_cpum d
  else if String.eqb k "temp_cpub" then Client.temp_cpub d
  else if String.eqb k "temp_sw" then Client.temp_sw d
  else if String.eqb k "fan_rpm" then Client.fan_rpm d
  else if String.eqb k "uptime_val" then Client.uptime_val d
  else None.

(** The eight readings that the reducer writes whatever the message holds. *)
Definition overwritten_keys : list string :=
  ["temp_cpu0"; "temp_cpu1"; "temp_cpu2"; "temp_cpu3";
   "temp_cpum"; "temp_cpub"; "temp_sw"; "fan_rpm"]%string.

Definition is_overwritten (k : string) : bool :=
  existsb (String.eqb k) overwritten_keys.

(** [{temp_cpu1: 42}] as a message. *)
Definition lone_core1_message : Client.SystemStatusData :=
  Client.MkSystemStatus None (Some 42%Z) None None None None None None None.

(** A message with no field at all. *)
Definition empty_message : Client.SystemStatusData :=
  Client.MkSystemStatus None None None None None None None None None.

(** [{temp_cpu0:40, temp_cpu1:42, temp_cpu2:41, temp_cpu3:43, temp_cpum:50}] *)
Definition cores_and_cpum : Client.SystemStatusData :=
  Client.MkSystemStatus (Some 40%Z) (Some 42%Z) (Some 41%Z) (Some 43%Z)
                        (Some 50%Z) None None None None.

(** A snapshot [{temp_sw: 40, model: "ultra"}]. *)
Definition known_info : gmap string jsval :=
  <["temp_sw" := VNum 40]> {[ "model" := VStr "ultra" ]}.

Definition system_with (i : option (gmap string jsval))
    (h : list Client.TemperatureHistoryPoint) : Client.SystemState :=
  {| Client.info := i; Client.schedule := None;
     Client.temperatureHistory := h;
     Client.isLoading := false; Client.error := None |}.

Definition empty_connection : Client.ConnectionState :=
  {| Client.status := None; Client.conn_error := None;
     Client.history := []; Client.conn_rest := ∅ |}.

Definition fresh_stores : Client.Stores :=
  {| Client.connection := empty_connection;
     Client.system := Client.initial_system_state |}.

(** What a push keeps of a buffer of at most 60 entries: all of it, or all
    but the first, oldest, entry when the buffer is full. *)
Definition evict_oldest {A : Type} (l : list A) : list A :=
  if Nat.eqb (length l) 60 then tl l else l.

(** *** The scheduler *)

(** [{enabled: true, days: []}] *)
Definition enable_no_day : Scheduler.PartialSchedule :=
  {| Scheduler.p_enabled := Some true; Scheduler.p_days := Some [];
     Scheduler.p_time := None |}.

(** A service with a task running for Mondays at 04:00, on a disk that
    takes writes. *)
Definition running_service : Scheduler.Service :=
  {| Scheduler.schedule :=
       {| Scheduler.enabled := true; Scheduler.days := [1%Z];
          Scheduler.time := "04:00" |};
     Scheduler.task := Some "00 04 * * 1"%string;
     Scheduler.disk := {| Scheduler.file := None; Scheduler.writable := true |} |}.

Definition accept_all : string -> bool := fun _ => true.

End Scenario.

(* ===================================================================== *)
(** ** server/services/apiNormalizer.ts: detectApiCapabilities *)
(* ===================================================================== *)

Module ApiCapabilities.
Import JS.

Record ApiCapabilities : Type := MkCapabilities {
  version : string;
  hasSensorsArray : bool;
  hasFansArray : bool;
  supportsPagination : bool
}.

Definition digit_value (c : ascii) : Z := Z.of_nat (code c - 48).

(** The decimal digits at the head of [s], read on from [acc]; [None] when
    no digit has been read. *)
Fixpoint read_digits (acc : option Z) (s : string) : option Z :=
  match s with
  | EmptyString => acc
  | String c r =>
    if is_digit c
    then read_digits (Some (10 * default 0%Z acc + digit_value c)%Z) r
    else acc
  end.

(** [parseInt(s, 10)]: white space, a sign, digits; [None] is [NaN].  The
    value is the exact integer: what the only uses, a test against zero and
    comparisons with 8 and 15, give on the nearest double is the same. *)
Definition parseInt10 (s : string) : option Z :=
  match skip_ws s with
  | EmptyString => None
  | String c r =>
    if Nat.eqb (code c) 45 then option_map Z.opp (read_digits None r)
    else if Nat.eqb (code c) 43 then read_digits None r
    else read_digits None (String c r)
  end.

(** [n || 4] on the result of [parseInt]. *)
Definition or_four (n : option Z) : Z :=
  match n with
  | Some n => if Z.eqb n 0 then 4%Z else n
  | None => 4%Z
  end.

Definition detectApiCapabilities (apiVersion : option string) : ApiCapabilities :=
  let version := default "v4"%string (truthy_name apiVersion) in
  let versionNum := or_four (parseInt10 (replace_first "v" "" version)) in
  {| version := version;
     hasSensorsArray := Z.leb 8 versionNum;
     hasFansArray := Z.leb 8 versionNum;
     supportsPagination := Z.leb 15 versionNum |}.

End ApiCapabilities.

(* ===================================================================== *)
(** ** server/routes/system.ts *)
(* ===================================================================== *)

Module SystemRoute.
Import JS.

(** Truthiness. *)
Definition truthy (v : jsval) : bool :=
  match v with
  | VUndefined | VNull => false
  | VBool b => b
  | VNum n => negb (Z.eqb n 0)
  | VStr s => negb (is_empty s)
  | VArr _ | VObj _ => true
  end.

(** [a || b] *)
Definition js_or (a b : jsval) : jsval := if truthy a then a else b.

(** Modelled from the spec: what [freeboxApi.getSystemInfo] and
    [freeboxApi.getApiVersion] resolve to, a success flag with a result
    payload or an error descriptor; the declaration is not among the
    sources.  A result that is missing is [None]. *)
Record ApiResult : Type := MkApiResult {
  success : bool;
  result : option (gmap string jsval);
  error : jsval
}.

(** The three assignments [system.box_model_name = ...],
    [system.device_name = ...], [system.api_version = ...]. *)
Definition add_version (system version : gmap string jsval) : gmap string jsval :=
  <["api_version" := js_or (get version "api_version") VNull]>
  (<["device_name" := js_or (get version "device_name") VNull]>
  (<["box_model_name" := js_or (get version "box_model_name")
                               (js_or (get version "box_model") VNull)]> system)).

Section Routes.

Variable coerced_round_mean : list jsval -> jsval.
Variable cron_validate : string -> bool.

(** [GET /api/system], from the two results on: the body sent. *)
Definition get_system (systemResult versionResult : ApiResult) : ApiResult :=
  match success systemResult, result systemResult,
        success versionResult, result versionResult with
  | true, Some system, true, Some version =>
    let system := add_version system version in
    let normalized := ApiNormalizer.normalizeSystemInfo coerced_round_mean system in
    {| success := success systemResult; result := Some normalized;
       error := error systemResult |}
  | _, _, _, _ => systemResult
  end.

(** The body of the two schedule routes. *)
Record ScheduleResponse : Type := MkScheduleResponse {
  sr_success : bool;
  sr_result : option Scheduler.RebootSchedule
}.

(** [GET /api/system/reboot/schedule] *)
Definition get_reboot_schedule (st : Scheduler.Service) : ScheduleResponse :=
  {| sr_success := true; sr_result := Some (Scheduler.getSchedule st) |}.

(** [POST /api/system/reboot/schedule] with the body [body]. *)
Definition post_reboot_schedule (st : Scheduler.Service)
    (body : Scheduler.PartialSchedule) : Scheduler.Service * ScheduleResponse :=
  let r := Scheduler.updateSchedule cron_validate st body in
  (fst r, {| sr_success := true; sr_result := Some (snd r) |}).

End Routes.

End SystemRoute.

(* ===================================================================== *)
(** ** src/components/modals/RebootScheduleModal.tsx and the schedule
       actions of src/stores/systemStore.ts *)
(* ===================================================================== *)

Module ScheduleModal.

(** The state of the form. *)
Record Form : Type := MkForm {
  enabled : bool;
  time : string;
  days : list Z
}.

(** [useState(false)], [useState('03:00')], [useState<number[]>([])] *)
Definition initial_form : Form := {| enabled := false; time := "03:00"; days := [] |}.

(** The effect on [schedule]: the form takes the stored schedule, if any. *)
Definition sync_form (schedule : option Scheduler.RebootSchedule) (form : Form) : Form :=
  match schedule with
  | Some s => {| enabled := Scheduler.enabled s; time := Scheduler.time s;
                 days := Scheduler.days s |}
  | None => form
  end.

(** [prev.includes(day) ? prev.filter(d => d !== day) : [...prev, day]] *)
Definition toggle (day : Z) (prev : list Z) : list Z :=
  if existsb (Z.eqb day) prev
  then List.filter (fun d => negb (Z.eqb d day)) prev
  else prev ++ [day].

Definition toggleDay (day : Z) (form : Form) : Form :=
  {| enabled := enabled form; time := time form; days := toggle day (days form) |}.

(** The argument of [updateSchedule] in [handleSave]. *)
Definition save_payload (form : Form) : Scheduler.PartialSchedule :=
  {| Scheduler.p_enabled := Some (enabled form);
     Scheduler.p_days := Some (days form);
     Scheduler.p_time := Some (time form) |}.

(** The store's [updateSchedule] from its [await] on: the response, or
    [None] when the request throws. *)
Definition store_updateSchedule (response : option SystemRoute.ScheduleResponse)
    (state : Client.SystemState) : Client.SystemState * bool :=
  match response with
  | Some r =>
    match SystemRoute.sr_success r, SystemRoute.sr_result r with
    | true, Some s =>
      ({| Client.info := Client.info state; Client.schedule := Some s;
          Client.temperatureHistory := Client.temperatureHistory state;
          Client.isLoading := Client.isLoading state;
          Client.error := Client.error state |}, true)
    | _, _ => (state, false)
    end
  | None => (state, false)
  end.

(** The store's [fetchSchedule] from its [await] on. *)
Definition store_fetchSchedule (response : option SystemRoute.ScheduleResponse)
    (state : Client.SystemState) : Client.SystemState :=
  fst (store_updateSchedule response state).

End ScheduleModal.

(* ===================================================================== *)
(** ** Notions used by the statements below *)
(* ===================================================================== *)

Module Notions.
Import JS.

(** Two partial schedules sent one after the other, as one: the fields of
    the later one win. *)
Definition then_partial (first later : Scheduler.PartialSchedule)
  : Scheduler.PartialSchedule :=
  {| Scheduler.p_enabled := Client.nullish_or (Scheduler.p_enabled later)
                                              (Scheduler.p_enabled first);
     Scheduler.p_days := Client.nullish_or (Scheduler.p_days later)
                                           (Scheduler.p_days first);
     Scheduler.p_time := Client.nullish_or (Scheduler.p_time later)
                                           (Scheduler.p_time first) |}.

(** A string without a colon. *)
Fixpoint no_colon (s : string) : bool :=
  match s with
  | EmptyString => true
  | String c r => negb (Ascii.eqb c ":"%char) && no_colon r
  end.

(** A string without an underscore. *)
Fixpoint no_underscore (s : string) : bool :=
  match s with
  | EmptyString => true
  | String c r => negb (Nat.eqb (code c) 95) && no_underscore r
  end.

(** The point that the reducer pushes for a [system_status] message. *)
Definition message_point (now : string) (d : Client.SystemStatusData)
  : Client.TemperatureHistoryPoint :=
  {| Client.time := now;
     Client.cpuM := Client.of_opt (Client.message_cpuM d);
     Client.cpuB := Client.of_opt (Client.temp_cpub d);
     Client.sw := Client.of_opt (Client.temp_sw d) |}.

(** A stream of [system_status] messages, each with its arrival time. *)
Definition status_events (l : list (string * Client.SystemStatusData))
  : list Client.event :=
  map (fun m => Client.Message (fst m) (Client.SystemStatusMsg (Some (snd m)))) l.

(** The point that an event puts on the connection history: one for a
    [connection_status] message that carries data, with the two rates in
    rounded KiB; none for any other event. *)
Definition connection_push (e : Client.event) : option Client.NetworkStat :=
  match e with
  | Client.Message now (Client.ConnectionStatusMsg (Some st)) =>
    Some {| Client.ns_time := now;
            Client.download := round_div (Client.rate_down st) 1024;
            Client.upload := round_div (Client.rate_up st) 1024 |}
  | _ => None
  end.

(** The point that an event puts on the temperature history: one for a
    [system_status] message that carries data, one for a fetch that
    succeeds; none for any other event. *)
Definition temperature_push (coerced_round_mean : list jsval -> jsval)
    (e : Client.event) : option Client.TemperatureHistoryPoint :=
  match e with
  | Client.Message now (Client.SystemStatusMsg (Some d)) =>
    Some (message_point now d)
  | Client.FetchResume now (Client.Success i) =>
    Some (Client.fetched_point coerced_round_mean now i)
  | _ => None
  end.

(** A history of at most 60 entries after one event: as it was when the
    event pushes nothing; otherwise the pushed point at the end of the
    entries it had, less the first, oldest, one when it was full. *)
Definition history_after {A : Type} (before : list A) (pushed : option A)
  : list A :=
  match pushed with
  | Some p => Scenario.evict_oldest before ++ [p]
  | None => before
  end.

(** Integer readings that a JavaScript number holds exactly, with room for
    the sum of four of them: on these the sum, the quotient and
    [Math.round] of the source are the exact ones. *)
Definition exact_readings (l : list Z) : bool :=
  forallb (fun c => Z.leb (Z.abs c) (2 ^ 50)) l.

(** All the readings of [l] are between the integers [lo] and [hi]. *)
Definition between_Q (lo hi : Z) (l : list Q) : Prop :=
  Forall (fun q => (inject_Z lo <= q <= inject_Z hi)%Q) l.

(** The CPU readings of a message of integers. *)
Definition readings_of (d : Client.SystemStatusData) : Client.CpuReadings :=
  {| Client.q_cpu0 := option_map inject_Z (Client.temp_cpu0 d);
     Client.q_cpu1 := option_map inject_Z (Client.temp_cpu1 d);
     Client.q_cpu2 := option_map inject_Z (Client.temp_cpu2 d);
     Client.q_cpu3 := option_map inject_Z (Client.temp_cpu3 d);
     Client.q_cpum := option_map inject_Z (Client.temp_cpum d) |}.

(** The [sensors] array of a snapshot; none when the field is not an
    array. *)
Definition sensor_list (info : gmap string jsval) : list Sensor :=
  match as_array (get info "sensors") with
  | Some l => l
  | None => []
  end.

(** The state of the service after the updates [ps], one after the other. *)
Definition after_updates (validate : string -> bool) (st : Scheduler.Service)
    (ps : list Scheduler.PartialSchedule) : Scheduler.Service :=
  fold_left (fun st p => fst (Scheduler.updateSchedule validate st p)) ps st.

(** The task that a schedule calls for: its cron expression when it is
    enabled, has a day, and the expression is valid. *)
Definition wanted_task (validate : string -> bool) (s : Scheduler.RebootSchedule)
  : option string :=
  if Scheduler.enabled s && negb (Nat.eqb (length (Scheduler.days s)) 0)
     && validate (Scheduler.cron_expression s)
  then Some (Scheduler.cron_expression s)
  else None.

(** The keys that the normaliser reads or writes. *)
Definition normalizer_key (k : string) : bool :=
  String.prefix "temp_" k || String.eqb k "sensors" || String.eqb k "fans"
  || String.eqb k "fan_rpm".

(** *** Sample inputs *)

(** The array cores with a field of the vendor. *)
Definition with_model : gmap string jsval :=
  <["box_model_name" := VStr "Freebox Ultra"]> Scenario.array_cores.

(** Sensors [temp_cpub], then its short code [t2], then [temp_sw]. *)
Definition box_then_alias : gmap string jsval :=
  {[ "sensors" := VArr [MkSensor "temp_cpub" None (VNum 40);
                        MkSensor "t2" None (VNum 45);
                        MkSensor "temp_sw" None (VNum 30)] ]}.

(** Two fans, the second one under a main id. *)
Definition two_fans : gmap string jsval :=
  {[ "fans" := VArr [MkSensor "fan1_speed" None (VNum 900);
                     MkSensor "fan0" None (VNum 1200)] ]}.

(** [{temp_cpum: 50, temp_cpub: 40, temp_sw: 30}] *)
Definition legacy_readings : gmap string jsval :=
  <["temp_cpum" := VNum 50]> (<["temp_cpub" := VNum 40]> {[ "temp_sw" := VNum 30 ]}).

(** The same readings as a message. *)
Definition legacy_message : Client.SystemStatusData :=
  Client.MkSystemStatus None None None None (Some 50%Z) (Some 40%Z) (Some 30%Z)
                        None None.

(** A disk that takes writes and holds no file. *)
Definition empty_disk : Scheduler.Disk :=
  {| Scheduler.file := None; Scheduler.writable := true |}.

(** The service as first started, on a disk that refuses writes. *)
Definition readonly_service : Scheduler.Service :=
  {| Scheduler.schedule := Scheduler.DEFAULT_SCHEDULE;
     Scheduler.task := None;
     Scheduler.disk := {| Scheduler.file := None; Scheduler.writable := false |} |}.

(** The [k]-th of a stream of messages: a connection status with rates of
    [k] and [2k] KiB/s, then a system status with a main CPU at [k]. *)
Definition numbered_status (k : nat) : Client.event :=
  Client.Message "12:00:00"
    (Client.ConnectionStatusMsg
       (Some {| Client.rate_down := 1024 * Z.of_nat k;
                Client.rate_up := 2048 * Z.of_nat k;
                Client.status_rest := ∅ |})).

Definition numbered_reading (k : nat) : Client.event :=
  Client.Message "12:00:00"
    (Client.SystemStatusMsg
       (Some (Client.MkSystemStatus None None None None (Some (Z.of_nat k))
                                    None None None None))).

(** The messages 1 to [n], the two kinds in turn. *)
Definition numbered_events (n : nat) : list Client.event :=
  flat_map (fun k => [numbered_status k; numbered_reading k]) (seq 1 n).

(** The points that these messages push. *)
Definition numbered_stat (k : nat) : Client.NetworkStat :=
  {| Client.ns_time := "12:00:00";
     Client.download := Z.of_nat k; Client.upload := 2 * Z.of_nat k |}.

Definition numbered_point (k : nat) : Client.TemperatureHistoryPoint :=
  {| Client.time := "12:00:00"; Client.cpuM := VNum (Z.of_nat k);
     Client.cpuB := VUndefined; Client.sw := VUndefined |}.

(** Two cores at 40.2 and 40.4 degrees. *)
Definition fractional_cores : Client.CpuReadings :=
  {| Client.q_cpu0 := Some (201 # 5)%Q; Client.q_cpu1 := Some (202 # 5)%Q;
     Client.q_cpu2 := None; Client.q_cpu3 := None; Client.q_cpum := None |}.

(** [{time: "04:30"}] *)
Definition set_time : Scheduler.PartialSchedule :=
  {| Scheduler.p_enabled := None; Scheduler.p_days := None;
     Scheduler.p_time := Some "04:30"%string |}.

End Notions.

Import JS ApiNormalizer Scenario.

(* ===================================================================== *)
(** ** Properties of the normaliser *)
(* ===================================================================== *)

Section NormalizerFacts.

Variable f : list jsval -> jsval.

Lemma prefix_differs (p a b : string) :
  String.prefix p a = true -> String.prefix p b = false -> a <> b.
Proof. intros Ha Hb ->. congruence. Qed.

(** The loop over the sensors writes under keys that start with [temp_]. *)
Lemma extract_sensor_lookup (k : string) (r : gmap string jsval) (s : Sensor) :
  String.prefix "temp_" k = false ->
  extract_sensor r s !! k = r !! k.
Proof.
  intros Hk. unfold extract_sensor.
  repeat match goal with
  | |- context [if ?b then _ else _] => destruct b eqn:?
  end;
  repeat (rewrite lookup_insert_ne;
          [| eapply prefix_differs; [|exact Hk]; first [eassumption | reflexivity] ]);
  reflexivity.
Qed.

Lemma extract_sensors_lookup (k : string) (l : list Sensor) (r : gmap string jsval) :
  String.prefix "temp_" k = false ->
  fold_left extract_sensor l r !! k = r !! k.
Proof.
  intros Hk. revert r. induction l as [|s l IH]; intros r; simpl; [reflexivity|].
  rewrite IH. now apply extract_sensor_lookup.
Qed.

Lemma derive_cpum_lookup (k : string) (r : gmap string jsval) :
  k <> "temp_cpum"%string -> derive_cpum f r !! k = r !! k.
Proof.
  intros Hk. unfold derive_cpum.
  repeat match goal with
  | |- context [if ?b then _ else _] => destruct b
  end; try reflexivity.
  now rewrite lookup_insert_ne.
Qed.

End NormalizerFacts.

Section NormalizerProperties.

Variable f : list jsval -> jsval.

Lemma fans_part_lookup (k : string) (data r : gmap string jsval) :
  k <> "fans"%string -> k <> "fan_rpm"%string ->
  normalize_fans_part data r !! k = r !! k.
Proof.
  intros H1 H2. unfold normalize_fans_part.
  destruct (as_array (get data "fans")) as [rawFans|].
  - destruct (main_fan rawFans);
      now rewrite ?(lookup_insert_ne _ "fan_rpm"), ?(lookup_insert_ne _ "fans").
  - destruct (not_nullish (get data "fan_rpm"));
      now rewrite ?(lookup_insert_ne _ "fans").
Qed.

Lemma sensors_part_lookup_fans (k : string) (data r : gmap string jsval) :
  String.prefix "temp_" k = false -> k <> "sensors"%string ->
  normalize_sensors_part f data r !! k = r !! k.
Proof.
  intros Hp Hk. unfold normalize_sensors_part.
  destruct (as_array (get data "sensors")) as [rawSensors|].
  - rewrite derive_cpum_lookup by (intros ->; discriminate).
    rewrite extract_sensors_lookup by assumption.
    now rewrite lookup_insert_ne.
  - destruct (Nat.ltb 0 (length (legacy_sensors data))); [|reflexivity].
    now rewrite lookup_insert_ne.
Qed.

(** The array shape: the [sensors] of the output are those of the input,
    renamed. *)
Lemma sensors_of_array (data : gmap string jsval) (l : list Sensor) :
  as_array (get data "sensors") = Some l ->
  normalizeSystemInfo f data !! "sensors" = Some (VArr (map normalize_sensor l)).
Proof.
  intros Ha. unfold normalizeSystemInfo.
  rewrite fans_part_lookup by discriminate.
  unfold normalize_sensors_part. rewrite Ha.
  rewrite derive_cpum_lookup by discriminate.
  rewrite extract_sensors_lookup by reflexivity.
  apply lookup_insert_eq.
Qed.

(** The flat shape: the array built from the flat fields, if it has an
    element. *)
Lemma sensors_of_flat (data : gmap string jsval) :
  as_array (get data "sensors") = None ->
  normalizeSystemInfo f data !! "sensors" =
    if Nat.ltb 0 (length (legacy_sensors data))
    then Some (VArr (legacy_sensors data))
    else data !! "sensors".
Proof.
  intros Ha. unfold normalizeSystemInfo.
  rewrite fans_part_lookup by discriminate.
  unfold normalize_sensors_part. rewrite Ha.
  destruct (Nat.ltb 0 (length (legacy_sensors data))); [|reflexivity].
  apply lookup_insert_eq.
Qed.

Lemma fans_of_array (data : gmap string jsval) (l : list Sensor) :
  as_array (get data "fans") = Some l ->
  normalizeSystemInfo f data !! "fans" = Some (VArr (map normalize_fan l)).
Proof.
  intros Ha. unfold normalizeSystemInfo, normalize_fans_part. rewrite Ha.
  destruct (main_fan l).
  - rewrite lookup_insert_ne by discriminate. apply lookup_insert_eq.
  - apply lookup_insert_eq.
Qed.

Lemma fans_of_flat (data : gmap string jsval) :
  as_array (get data "fans") = None ->
  normalizeSystemInfo f data !! "fans" =
    if not_nullish (get data "fan_rpm")
    then Some (VArr [MkSensor "fan_rpm" (Some "Ventilateur"%string)
                              (get data "fan_rpm")])
    else data !! "fans".
Proof.
  intros Ha. unfold normalizeSystemInfo, normalize_fans_part. rewrite Ha.
  destruct (not_nullish (get data "fan_rpm")).
  - apply lookup_insert_eq.
  - now apply sensors_part_lookup_fans.
Qed.

(** The literal names of the [else] branch are those of the lookup table,
    and the pushes come in the order of the gated rule. *)
Lemma legacy_sensors_gated (data : gmap string jsval) :
  legacy_sensors data = gated_flat_sensors data.
Proof.
  unfold legacy_sensors, gated_flat_sensors, push_flat, flat_entry.
  destruct (not_nullish (get data "temp_cpu0"));
  destruct (not_nullish (get data "temp_cpu1"));
  destruct (not_nullish (get data "temp_cpu2"));
  destruct (not_nullish (get data "temp_cpu3"));
  destruct (not_nullish (get data "temp_cpum"));
  destruct (not_nullish (get data "temp_cpub"));
  destruct (not_nullish (get data "temp_sw")); reflexivity.
Qed.

Lemma as_array_inv (v : jsval) (l : list Sensor) :
  as_array v = Some l -> v = VArr l.
Proof. destruct v; simpl; congruence. Qed.

Lemma as_array_none (v : jsval) (l : list Sensor) :
  as_array v = None -> v <> VArr l.
Proof. intros H ->. discriminate. Qed.

End NormalizerProperties.

(* ===================================================================== *)
(** ** The normaliser applied to its own output *)
(* ===================================================================== *)

Section SecondPass.
Variable f : list jsval -> jsval.

Lemma lookup_insert_if (b : bool) (k0 k : string) (v : jsval) (r : gmap string jsval) :
  (if b then <[k0 := v]> r else r) !! k
  = if b && String.eqb k0 k then Some v else r !! k.
Proof.
  destruct b; [|reflexivity]. cbn.
  destruct (String.eqb_spec k0 k) as [->|Hne].
  - apply lookup_insert_eq.
  - now apply lookup_insert_ne.
Qed.

Lemma extract_sensor_spec (r : gmap string jsval) (s : Sensor) (k : string) :
  extract_sensor r s !! k = if writes_key s k then Some (value s) else r !! k.
Proof.
  unfold extract_sensor, writes_key.
  rewrite !lookup_insert_if.
  rewrite (String.eqb_sym k "temp_cpum"), (String.eqb_sym k "temp_cpub"),
          (String.eqb_sym k "temp_sw").
  destruct (String.prefix "temp_" (id s) && String.eqb (id s) k);
  destruct ((id_is s "t1" || id_is s "cpu_ap") && String.eqb "temp_cpum" k);
  destruct ((id_is s "t2" || id_is s "cpu_cp") && String.eqb "temp_cpub" k);
  destruct ((id_is s "t3" || id_is s "switch") && String.eqb "temp_sw" k);
  reflexivity.
Qed.

Lemma extract_sensors_spec (l : list Sensor) (r : gmap string jsval) (k : string) :
  fold_left extract_sensor l r !! k = last_write l k (r !! k).
Proof.
  revert r. induction l as [|s l IH]; intros r; simpl; [reflexivity|].
  now rewrite IH, extract_sensor_spec.
Qed.

Lemma last_write_default (l : list Sensor) (k : string) (before : option jsval) :
  last_write l k before
  = match last_write l k None with Some v => Some v | None => before end.
Proof.
  revert before. induction l as [|s l IH]; intros before; simpl; [reflexivity|].
  destruct (writes_key s k); [|apply IH].
  rewrite (IH (Some (value s))). destruct (last_write l k None); reflexivity.
Qed.

Lemma last_write_normalized (l : list Sensor) (k : string) (before : option jsval) :
  last_write (map normalize_sensor l) k before = last_write l k before.
Proof.
  revert before. induction l as [|s l IH]; intros before; simpl; [reflexivity|].
  apply IH.
Qed.

(** A loop run twice writes what it wrote the first time. *)
Lemma last_write_twice (l : list Sensor) (k : string) (before : option jsval) :
  last_write l k (last_write l k before) = last_write l k before.
Proof.
  rewrite (last_write_default l k (last_write l k before)).
  rewrite (last_write_default l k before).
  destruct (last_write l k None); reflexivity.
Qed.


Lemma normalize_sensor_idem_readings (l : list Sensor) :
  map id (map normalize_sensor l) = map id l
  /\ map value (map normalize_sensor l) = map value l.
Proof. rewrite !map_map. split; reflexivity. Qed.

Lemma getFanDisplayName_idem (i : string) (n : option string) :
  getFanDisplayName i (Some (getFanDisplayName i n)) = getFanDisplayName i n.
Proof.
  unfold getFanDisplayName.
  destruct (table_lookup FAN_NAMES i); [reflexivity|].
  destruct (truthy_name n) as [n'|] eqn:Hn.
  - destruct n as [n0|]; [|discriminate]. simpl in Hn.
    destruct n0; simpl in Hn; inversion Hn; subst. reflexivity.
  - simpl. destruct (capitalize_words _); reflexivity.
Qed.

Lemma normalize_fan_idem (l : list Sensor) :
  map normalize_fan (map normalize_fan l) = map normalize_fan l.
Proof.
  rewrite map_map. apply map_ext. intros s.
  unfold normalize_fan. cbn. now rewrite getFanDisplayName_idem.
Qed.

Lemma find_main_fan_normalized (l : list Sensor) :
  List.find is_main_fan (map normalize_fan l)
  = option_map normalize_fan (List.find is_main_fan l).
Proof.
  induction l as [|s l IH]; [reflexivity|]. simpl.
  change (is_main_fan (normalize_fan s)) with (is_main_fan s).
  destruct (is_main_fan s); [reflexivity | exact IH].
Qed.

Lemma main_fan_normalized (l : list Sensor) :
  main_fan (map normalize_fan l) = option_map normalize_fan (main_fan l).
Proof.
  unfold main_fan. rewrite find_main_fan_normalized.
  destruct (List.find is_main_fan l); [reflexivity|].
  destruct l; reflexivity.
Qed.


Lemma temp_agree_get (a b : gmap string jsval) (k : string) :
  temp_agree a b -> String.prefix "temp_" k = true -> get a k = get b k.
Proof. intros H Hk. unfold get. now rewrite (H k Hk). Qed.

Lemma temp_agree_trans (a b c : gmap string jsval) :
  temp_agree a b -> temp_agree b c -> temp_agree a c.
Proof. intros H1 H2 k Hk. now rewrite (H1 k Hk), (H2 k Hk). Qed.

Lemma temp_agree_sym (a b : gmap string jsval) :
  temp_agree a b -> temp_agree b a.
Proof. intros H k Hk. now rewrite (H k Hk). Qed.

Lemma core_temps_agree (a b : gmap string jsval) :
  temp_agree a b -> core_temps a = core_temps b.
Proof.
  intros H. unfold core_temps.
  now rewrite !(temp_agree_get a b _ H) by reflexivity.
Qed.

Lemma core_temps_nonempty (r : gmap string jsval) :
  not_nullish (get r "temp_cpu0") = true ->
  Nat.ltb 0 (length (core_temps r)) = true.
Proof. intros H. unfold core_temps. cbn [List.filter]. now rewrite H. Qed.

Lemma derive_cpum_fires (r : gmap string jsval) :
  not_nullish (get r "temp_cpu0") = true ->
  not_nullish (get r "temp_cpum") = false ->
  derive_cpum f r = <["temp_cpum" := round_mean f (core_temps r)]> r.
Proof.
  intros H0 Hm. unfold derive_cpum. rewrite H0, Hm. cbn [andb negb].
  now rewrite core_temps_nonempty.
Qed.

Lemma derive_cpum_idle (r : gmap string jsval) :
  not_nullish (get r "temp_cpu0") && negb (not_nullish (get r "temp_cpum")) = false ->
  derive_cpum f r = r.
Proof. intros H. unfold derive_cpum. now rewrite H. Qed.

(** [derive_cpum] looks at the flat fields only. *)
Lemma derive_cpum_agree (a b : gmap string jsval) :
  temp_agree a b -> temp_agree (derive_cpum f a) (derive_cpum f b).
Proof.
  intros H k Hk. unfold derive_cpum.
  rewrite !(temp_agree_get a b _ H) by reflexivity.
  rewrite (core_temps_agree a b H).
  repeat match goal with
  | |- context [if ?c then _ else _] => destruct c
  end; try apply (H k Hk).
  destruct (String.eqb_spec "temp_cpum" k) as [<-|Hne].
  - now rewrite !lookup_insert_eq.
  - rewrite !lookup_insert_ne by assumption. apply (H k Hk).
Qed.

Lemma insert_cpum_agree (r : gmap string jsval) (v : jsval) (k : string) :
  k <> "temp_cpum"%string -> get (<["temp_cpum" := v]> r) k = get r k.
Proof. intros Hk. unfold get. now rewrite lookup_insert_ne. Qed.

(** Deriving the mean a second time changes nothing. *)
Lemma derive_cpum_twice (r : gmap string jsval) :
  derive_cpum f (derive_cpum f r) = derive_cpum f r.
Proof.
  destruct (not_nullish (get r "temp_cpu0")
            && negb (not_nullish (get r "temp_cpum"))) eqn:Hfire.
  2:{ now rewrite !(derive_cpum_idle r Hfire). }
  apply andb_true_iff in Hfire as [H0 Hm]. apply negb_true_iff in Hm.
  rewrite (derive_cpum_fires r H0 Hm).
  set (m := round_mean f (core_temps r)).
  assert (Hc : core_temps (<["temp_cpum" := m]> r) = core_temps r).
  { unfold core_temps. now rewrite !insert_cpum_agree by discriminate. }
  assert (H0' : not_nullish (get (<["temp_cpum" := m]> r) "temp_cpu0") = true).
  { now rewrite insert_cpum_agree by discriminate. }
  assert (Hm' : get (<["temp_cpum" := m]> r) "temp_cpum" = m).
  { unfold get. now rewrite lookup_insert_eq. }
  destruct (not_nullish m) eqn:Hnn.
  - apply derive_cpum_idle. rewrite H0', Hm', Hnn. reflexivity.
  - rewrite derive_cpum_fires; [|assumption|now rewrite Hm'].
    rewrite Hc. fold m. apply insert_insert_eq.
Qed.

(** The flat fields after the array branch, from those before. *)
Lemma loop_lookup_temp (l l' : list Sensor) (r : gmap string jsval) (k : string) :
  String.prefix "temp_" k = true ->
  fold_left extract_sensor l (<["sensors" := VArr l']> r) !! k
  = last_write l k (r !! k).
Proof.
  intros Hk. rewrite extract_sensors_spec.
  rewrite lookup_insert_ne; [reflexivity|].
  intros <-. discriminate.
Qed.

Lemma normalize_lookup_temp (data : gmap string jsval) (k : string) :
  String.prefix "temp_" k = true ->
  normalizeSystemInfo f data !! k = normalize_sensors_part f data data !! k.
Proof.
  intros Hk. unfold normalizeSystemInfo.
  apply fans_part_lookup; intros ->; discriminate.
Qed.

(** The array branch run on its own output. *)
Lemma array_branch_twice (data : gmap string jsval) (l : list Sensor) :
  as_array (get data "sensors") = Some l ->
  temp_agree (normalizeSystemInfo f (normalizeSystemInfo f data))
             (normalizeSystemInfo f data).
Proof.
  intros Ha.
  set (once := normalizeSystemInfo f data).
  assert (Hs1 : once !! "sensors" = Some (VArr (map normalize_sensor l)))
    by (now apply sensors_of_array).
  assert (Ha1 : as_array (get once "sensors") = Some (map normalize_sensor l))
    by (unfold get; now rewrite Hs1).
  set (F1 := fold_left extract_sensor l
               (<["sensors" := VArr (map normalize_sensor l)]> data)).
  set (F2 := fold_left extract_sensor (map normalize_sensor l)
               (<["sensors" := VArr (map normalize_sensor (map normalize_sensor l))]> once)).
  assert (H1 : temp_agree once (derive_cpum f F1)).
  { intros k Hk. subst once. rewrite normalize_lookup_temp by assumption.
    unfold normalize_sensors_part. now rewrite Ha. }
  assert (H2 : temp_agree (normalizeSystemInfo f once) (derive_cpum f F2)).
  { intros k Hk. rewrite normalize_lookup_temp by assumption.
    unfold normalize_sensors_part. now rewrite Ha1. }
  apply (temp_agree_trans _ _ _ H2). apply temp_agree_sym.
  apply (temp_agree_trans _ _ _ H1). apply temp_agree_sym.
  assert (HF1 : forall k, String.prefix "temp_" k = true ->
                  F1 !! k = last_write l k (data !! k)).
  { intros k Hk. now apply loop_lookup_temp. }
  assert (HF2 : forall k, String.prefix "temp_" k = true ->
                  F2 !! k = last_write l k (derive_cpum f F1 !! k)).
  { intros k Hk. subst F2. rewrite loop_lookup_temp by assumption.
    rewrite last_write_normalized. now rewrite (H1 k Hk). }
  destruct (last_write l "temp_cpum" None) as [v|] eqn:Hw.
  - (* the loop writes temp_cpum: the second loop restores what the first left *)
    apply derive_cpum_agree. intros k Hk.
    rewrite (HF2 k Hk), (HF1 k Hk).
    destruct (String.eqb_spec k "temp_cpum") as [->|Hne].
    + rewrite (last_write_default l _ (derive_cpum f F1 !! _)).
      rewrite (last_write_default l _ (data !! _)). now rewrite Hw.
    + rewrite derive_cpum_lookup by assumption.
      rewrite (HF1 k Hk). apply last_write_twice.
  - (* it does not: the second loop keeps the derived value *)
    rewrite <- (derive_cpum_twice F1). apply derive_cpum_agree. intros k Hk.
    rewrite (HF2 k Hk).
    destruct (String.eqb_spec k "temp_cpum") as [->|Hne].
    + rewrite last_write_default. now rewrite Hw.
    + rewrite derive_cpum_lookup by assumption.
      rewrite (HF1 k Hk). apply last_write_twice.
Qed.


(** *** The fans *)

Lemma fan_rpm_of (data : gmap string jsval) :
  normalizeSystemInfo f data !! "fan_rpm"
  = match as_array (get data "fans") with
    | Some rawFans =>
      match main_fan rawFans with
      | Some mainFan => Some (value mainFan)
      | None => data !! "fan_rpm"
      end
    | None => data !! "fan_rpm"
    end.
Proof.
  unfold normalizeSystemInfo, normalize_fans_part.
  destruct (as_array (get data "fans")) as [rawFans|].
  - destruct (main_fan rawFans).
    + apply lookup_insert_eq.
    + rewrite lookup_insert_ne by discriminate.
      now apply sensors_part_lookup_fans.
  - destruct (not_nullish (get data "fan_rpm")).
    + rewrite lookup_insert_ne by discriminate.
      now apply sensors_part_lookup_fans.
    + now apply sensors_part_lookup_fans.
Qed.

Lemma not_nullish_lookup (r : gmap string jsval) (k : string) :
  not_nullish (get r k) = true -> r !! k = Some (get r k).
Proof. unfold get. destruct (r !! k); [reflexivity | discriminate]. Qed.

(** The fans of a second pass are those of the first, names included. *)
Lemma fans_twice (data : gmap string jsval) :
  let once := normalizeSystemInfo f data in
  let twice := normalizeSystemInfo f once in
  twice !! "fans" = once !! "fans" /\ twice !! "fan_rpm" = once !! "fan_rpm".
Proof.
  intros once twice. subst twice.
  rewrite (fan_rpm_of once).
  assert (Hr : once !! "fan_rpm" = _) by apply (fan_rpm_of data).
  destruct (as_array (get data "fans")) as [rawFans|] eqn:Ha.
  - assert (Hf : once !! "fans" = Some (VArr (map normalize_fan rawFans)))
      by (now apply fans_of_array).
    assert (Ha1 : as_array (get once "fans") = Some (map normalize_fan rawFans))
      by (unfold get; now rewrite Hf).
    rewrite (fans_of_array f once _ Ha1), Ha1, Hf, normalize_fan_idem.
    split; [reflexivity|].
    rewrite main_fan_normalized.
    destruct (main_fan rawFans) as [m|]; cbn; [|reflexivity].
    now rewrite Hr.
  - assert (Hf : once !! "fans" = _) by apply (fans_of_flat f data Ha).
    destruct (not_nullish (get data "fan_rpm")) eqn:Hn.
    + assert (Ha1 : as_array (get once "fans")
                    = Some [MkSensor "fan_rpm" (Some "Ventilateur"%string)
                                     (get data "fan_rpm")])
        by (unfold get; now rewrite Hf).
      rewrite (fans_of_array f once _ Ha1), Ha1, Hf. cbn.
      split; [reflexivity|].
      rewrite Hr. symmetry. now apply not_nullish_lookup.
    + assert (Hg : get once "fans" = get data "fans")
        by (unfold get; now rewrite Hf).
      assert (Ha1 : as_array (get once "fans") = None) by (now rewrite Hg).
      assert (Hn1 : not_nullish (get once "fan_rpm") = false)
        by (unfold get; rewrite Hr; exact Hn).
      rewrite (fans_of_flat f once Ha1), Ha1, Hn1. split; reflexivity.
Qed.

(** *** The flat branch *)

Lemma legacy_sensors_agree (a b : gmap string jsval) :
  temp_agree a b -> legacy_sensors a = legacy_sensors b.
Proof.
  intros H. unfold legacy_sensors, push_flat.
  now rewrite !(temp_agree_get a b _ H) by reflexivity.
Qed.

Lemma flat_branch_agree (data : gmap string jsval) :
  as_array (get data "sensors") = None ->
  temp_agree (normalizeSystemInfo f data) data.
Proof.
  intros Ha k Hk. rewrite normalize_lookup_temp by assumption.
  unfold normalize_sensors_part. rewrite Ha.
  destruct (Nat.ltb 0 (length (legacy_sensors data))); [|reflexivity].
  rewrite lookup_insert_ne; [reflexivity|]. intros <-. discriminate.
Qed.

(** The names given by the flat branch are those the array branch gives. *)
Lemma legacy_sensors_normalized (data : gmap string jsval) :
  map normalize_sensor (legacy_sensors data) = legacy_sensors data.
Proof.
  unfold legacy_sensors, push_flat.
  destruct (not_nullish (get data "temp_cpu0"));
  destruct (not_nullish (get data "temp_cpu1"));
  destruct (not_nullish (get data "temp_cpu2"));
  destruct (not_nullish (get data "temp_cpu3"));
  destruct (not_nullish (get data "temp_cpum"));
  destruct (not_nullish (get data "temp_cpub"));
  destruct (not_nullish (get data "temp_sw")); reflexivity.
Qed.

(** A loop whose writes are already in the map changes nothing. *)
Lemma last_write_noop (l : list Sensor) (r : gmap string jsval) (k : string) :
  (forall s, In s l -> writes_key s k = true -> r !! k = Some (value s)) ->
  last_write l k (r !! k) = r !! k.
Proof.
  induction l as [|s l IH]; intros H; simpl; [reflexivity|].
  destruct (writes_key s k) eqn:Hw.
  - rewrite <- (H s (or_introl eq_refl) Hw). apply IH.
    intros s' Hs'. apply H. now right.
  - apply IH. intros s' Hs'. apply H. now right.
Qed.

Lemma flat_entry_inv (data : gmap string jsval) (k0 : string) (s : Sensor) :
  In s (flat_entry data k0) ->
  id s = k0 /\ data !! k0 = Some (value s).
Proof.
  unfold flat_entry. destruct (not_nullish (get data k0)) eqn:Hn; [|intros []].
  intros [<-|[]]. cbn. split; [reflexivity|]. now apply not_nullish_lookup.
Qed.

Lemma legacy_sensors_inv (data : gmap string jsval) (s : Sensor) :
  In s (legacy_sensors data) ->
  In (id s) flat_temperature_keys /\ data !! id s = Some (value s).
Proof.
  rewrite legacy_sensors_gated. unfold gated_flat_sensors.
  intros H.
  assert (Hin : exists k0, In k0 flat_temperature_keys /\ In s (flat_entry data k0)).
  { destruct (not_nullish (get data "temp_cpu0"));
      repeat (apply in_app_or in H; destruct H as [H|H]);
      try (exfalso; exact H);
      eexists; (split; [|exact H]); unfold flat_temperature_keys; simpl; tauto. }
  destruct Hin as (k0 & Hk0 & Hs).
  destruct (flat_entry_inv data k0 s Hs) as [<- Hv]. split; assumption.
Qed.

Lemma writes_key_flat (s : Sensor) (k : string) :
  In (id s) flat_temperature_keys -> writes_key s k = true -> id s = k.
Proof.
  unfold writes_key, id_is. intros Hin.
  assert (Hp : String.prefix "temp_" (id s) = true
               /\ String.eqb (id s) "t1" = false /\ String.eqb (id s) "cpu_ap" = false
               /\ String.eqb (id s) "t2" = false /\ String.eqb (id s) "cpu_cp" = false
               /\ String.eqb (id s) "t3" = false /\ String.eqb (id s) "switch" = false).
  { unfold flat_temperature_keys in Hin. simpl in Hin.
    repeat (destruct Hin as [<-|Hin]; [repeat split; reflexivity|]).
    destruct Hin. }
  destruct Hp as (-> & -> & -> & -> & -> & -> & ->). cbn.
  rewrite !orb_false_r. apply String.eqb_eq.
Qed.

Lemma legacy_loop_noop (data r : gmap string jsval) (k : string) :
  temp_agree r data ->
  String.prefix "temp_" k = true ->
  last_write (legacy_sensors data) k (r !! k) = r !! k.
Proof.
  intros Hag Hk. apply last_write_noop. intros s Hs Hw.
  destruct (legacy_sensors_inv data s Hs) as [Hin Hv].
  apply (writes_key_flat s k Hin) in Hw. subst k.
  now rewrite (Hag _ Hk).
Qed.

(** The array branch run on the output of the flat branch: the loop finds
    the flat fields as it would write them. *)
Lemma flat_then_array_loop (data : gmap string jsval) :
  as_array (get data "sensors") = None ->
  Nat.ltb 0 (length (legacy_sensors data)) = true ->
  let once := normalizeSystemInfo f data in
  as_array (get once "sensors") = Some (legacy_sensors data)
  /\ temp_agree
       (fold_left extract_sensor (legacy_sensors data)
          (<["sensors" := VArr (map normalize_sensor (legacy_sensors data))]> once))
       data.
Proof.
  intros Ha Hlen once.
  assert (Hs : once !! "sensors" = Some (VArr (legacy_sensors data))).
  { subst once. rewrite (sensors_of_flat f data Ha). now rewrite Hlen. }
  split; [unfold get; now rewrite Hs|].
  intros k Hk. rewrite loop_lookup_temp by assumption.
  rewrite (legacy_loop_noop data once k (flat_branch_agree data Ha) Hk).
  now apply flat_branch_agree.
Qed.


(** X8.  Away from the flat input with [temp_cpu0] and without [temp_cpum], a
    second pass gives the flat fields, [fans] and [fan_rpm] of the first;
    when the input's [sensors] is not an array it also gives the same
    [sensors], and when it is an array it gives sensors with the ids and
    values of the first pass, in the same order (the names may be cleaned
    once more). *)
Theorem second_pass_same (data : gmap string jsval) :
  flat_cores_without_cpum data = false ->
  let once := normalizeSystemInfo f data in
  let twice := normalizeSystemInfo f once in
  (forall k, String.prefix "temp_" k = true -> get twice k = get once k)
  /\ get twice "fans" = get once "fans"
  /\ get twice "fan_rpm" = get once "fan_rpm"
  /\ match as_array (get data "sensors") with
     | None => get twice "sensors" = get once "sensors"
     | Some _ => same_readings (get twice "sensors") (get once "sensors")
     end.
Proof.
  intros Hflat once twice.
  destruct (fans_twice data) as [Hfans Hrpm]. fold once in Hfans, Hrpm.
  fold twice in Hfans, Hrpm.
  assert (Hgoal : temp_agree twice once
                  /\ match as_array (get data "sensors") with
                     | None => get twice "sensors" = get once "sensors"
                     | Some _ => same_readings (get twice "sensors")
                                               (get once "sensors")
                     end).
  2:{ destruct Hgoal as [Hag Hsens]. split.
      - intros k Hk. now apply temp_agree_get.
      - unfold get at 1 2 3 4. rewrite Hfans, Hrpm. repeat split. exact Hsens. }
  unfold flat_cores_without_cpum in Hflat.
  destruct (as_array (get data "sensors")) as [l|] eqn:Ha.
  - split; [now apply (array_branch_twice data l)|].
    assert (Hs1 : once !! "sensors" = Some (VArr (map normalize_sensor l)))
      by (now apply sensors_of_array).
    assert (Ha1 : as_array (get once "sensors") = Some (map normalize_sensor l))
      by (unfold get; now rewrite Hs1).
    exists (map normalize_sensor (map normalize_sensor l)), (map normalize_sensor l).
    unfold get. subst twice. rewrite (sensors_of_array f once _ Ha1), Hs1.
    repeat split; apply normalize_sensor_idem_readings.
  - pose proof (flat_branch_agree data Ha) as Hag. fold once in Hag.
    destruct (Nat.ltb 0 (length (legacy_sensors data))) eqn:Hlen.
    + destruct (flat_then_array_loop data Ha Hlen) as [Ha1 HF2]. fold once in Ha1, HF2.
      split.
      * intros k Hk. subst twice. rewrite normalize_lookup_temp by assumption.
        unfold normalize_sensors_part. rewrite Ha1.
        rewrite (derive_cpum_agree _ _ HF2 k Hk).
        rewrite (derive_cpum_idle data Hflat). symmetry. now apply Hag.
      * unfold get. subst twice.
        rewrite (sensors_of_array f once _ Ha1), legacy_sensors_normalized.
        subst once. rewrite (sensors_of_flat f data Ha). now rewrite Hlen.
    + assert (Hs1 : once !! "sensors" = data !! "sensors").
      { subst once. rewrite (sensors_of_flat f data Ha). now rewrite Hlen. }
      assert (Ha1 : as_array (get once "sensors") = None)
        by (unfold get; rewrite Hs1; exact Ha).
      assert (Hleg : Nat.ltb 0 (length (legacy_sensors once)) = false)
        by (now rewrite (legacy_sensors_agree once data Hag)).
      split.
      * intros k Hk. subst twice. rewrite normalize_lookup_temp by assumption.
        unfold normalize_sensors_part. now rewrite Ha1, Hleg.
      * unfold get. subst twice.
        rewrite (sensors_of_flat f once Ha1). now rewrite Hleg.
Qed.

(** X9.  On a flat input with [temp_cpu0] and without [temp_cpum], the
    first pass writes no [temp_cpum] and the second pass writes the rounded
    mean of the cores. *)
Theorem second_pass_adds_mean (data : gmap string jsval) :
  flat_cores_without_cpum data = true ->
  let once := normalizeSystemInfo f data in
  let twice := normalizeSystemInfo f once in
  not_nullish (get once "temp_cpum") = false
  /\ get twice "temp_cpum" = round_mean f (core_temps data).
Proof.
  intros Hflat once twice. unfold flat_cores_without_cpum in Hflat.
  destruct (as_array (get data "sensors")) as [l|] eqn:Ha; [discriminate|].
  apply andb_true_iff in Hflat as [H0 Hm]. apply negb_true_iff in Hm.
  pose proof (flat_branch_agree data Ha) as Hag. fold once in Hag.
  split; [now rewrite (temp_agree_get once data _ Hag)|].
  assert (Hlen : Nat.ltb 0 (length (legacy_sensors data)) = true).
  { unfold legacy_sensors, push_flat. rewrite H0.
    repeat match goal with
    | |- context [if ?c then _ else _] => destruct c
    end; reflexivity. }
  destruct (flat_then_array_loop data Ha Hlen) as [Ha1 HF2]. fold once in Ha1, HF2.
  unfold get. subst twice. rewrite normalize_lookup_temp by reflexivity.
  unfold normalize_sensors_part. rewrite Ha1.
  rewrite (derive_cpum_agree _ _ HF2 "temp_cpum" eq_refl).
  rewrite (derive_cpum_fires data H0 Hm). now rewrite lookup_insert_eq.
Qed.

End SecondPass.

Section NormalizerClaims.

Variable f : list jsval -> jsval.

(** C1 (the code departs from the claim).  On the flat input
    [{temp_cpu0:40, temp_cpu1:42, temp_cpu2:41, temp_cpu3:43}] the normaliser
    builds the 4-element [sensors] array but writes no [temp_cpum]: the mean
    is derived in the array branch only, where the same four readings do give
    [temp_cpum = 42]. *)
Theorem C1_flat_cores_get_no_cpum :
  normalizeSystemInfo f flat_cores !! "temp_cpum" = None
  /\ (exists l, get (normalizeSystemInfo f flat_cores) "sensors" = VArr l
                /\ length l = 4%nat)
  /\ round_mean f [VNum 40; VNum 42; VNum 41; VNum 43] = VNum 42
  /\ get (normalizeSystemInfo f array_cores) "temp_cpum" = VNum 42.
Proof.
  split; [vm_compute; reflexivity|].
  split; [eexists; split; vm_compute; reflexivity|].
  split; vm_compute; reflexivity.
Qed.

(** C2 (as amended).  The output holds an empty [sensors] ([fans]) array
    exactly when the input's own [sensors] ([fans]) field is an empty array;
    an array-shaped field keeps its length.  Without an array-shaped
    [sensors], an array with at least one element is written when
    [temp_cpu0], [temp_cpum], [temp_cpub] or [temp_sw] is present, and the
    key is left as in the input otherwise; without an array-shaped [fans], a
    one-element array is written when [fan_rpm] is present, and the key is
    left as in the input otherwise. *)
Theorem C2_empty_array_only_passed_through (data : gmap string jsval) :
  let out := normalizeSystemInfo f data in
  (get out "sensors" = VArr [] <-> get data "sensors" = VArr [])
  /\ (get out "fans" = VArr [] <-> get data "fans" = VArr [])
  /\ (forall l, get data "sensors" = VArr l ->
        exists l', get out "sensors" = VArr l' /\ length l' = length l)
  /\ (forall l, get data "fans" = VArr l ->
        exists l', get out "fans" = VArr l' /\ length l' = length l)
  /\ (as_array (get data "sensors") = None ->
        if not_nullish (get data "temp_cpu0") || not_nullish (get data "temp_cpum")
           || not_nullish (get data "temp_cpub") || not_nullish (get data "temp_sw")
        then exists s l, get out "sensors" = VArr (s :: l)
        else out !! "sensors" = data !! "sensors")
  /\ (as_array (get data "fans") = None ->
        if not_nullish (get data "fan_rpm")
        then exists s, get out "fans" = VArr [s]
        else out !! "fans" = data !! "fans").
Proof.
  intros out.
  assert (Hs : forall l, get data "sensors" = VArr l ->
            get out "sensors" = VArr (map normalize_sensor l)).
  { intros l Hl. unfold get at 1. subst out.
    rewrite (sensors_of_array f data l); [reflexivity | now rewrite Hl]. }
  assert (Hf : forall l, get data "fans" = VArr l ->
            get out "fans" = VArr (map normalize_fan l)).
  { intros l Hl. unfold get at 1. subst out.
    rewrite (fans_of_array f data l); [reflexivity | now rewrite Hl]. }
  assert (Hs' : as_array (get data "sensors") = None ->
            if not_nullish (get data "temp_cpu0") || not_nullish (get data "temp_cpum")
               || not_nullish (get data "temp_cpub") || not_nullish (get data "temp_sw")
            then exists s l, get out "sensors" = VArr (s :: l)
            else out !! "sensors" = data !! "sensors").
  { intros Hn. subst out. unfold get at 5. rewrite (sensors_of_flat f data Hn).
    rewrite legacy_sensors_gated. unfold gated_flat_sensors, flat_entry.
    destruct (not_nullish (get data "temp_cpu0"));
    destruct (not_nullish (get data "temp_cpu1"));
    destruct (not_nullish (get data "temp_cpu2"));
    destruct (not_nullish (get data "temp_cpu3"));
    destruct (not_nullish (get data "temp_cpum"));
    destruct (not_nullish (get data "temp_cpub"));
    destruct (not_nullish (get data "temp_sw")); simpl;
      solve [reflexivity | eexists; eexists; reflexivity]. }
  assert (Hf' : as_array (get data "fans") = None ->
            if not_nullish (get data "fan_rpm")
            then exists s, get out "fans" = VArr [s]
            else out !! "fans" = data !! "fans").
  { intros Hn. subst out. unfold get at 2. rewrite (fans_of_flat f data Hn).
    destruct (not_nullish (get data "fan_rpm")); [eexists|]; reflexivity. }
  repeat split.
  - intros Ho. destruct (as_array (get data "sensors")) as [l|] eqn:Ha.
    + apply as_array_inv in Ha. rewrite (Hs l Ha) in Ho.
      destruct l; [assumption | discriminate].
    + specialize (Hs' eq_refl). exfalso.
      destruct (_ || _) in Hs'.
      * destruct Hs' as (s & l & Hsl). congruence.
      * unfold get in Ho. rewrite Hs' in Ho. fold (get data "sensors") in Ho.
        rewrite Ho in Ha. discriminate.
  - intros Hd. rewrite (Hs [] Hd). reflexivity.
  - intros Ho. destruct (as_array (get data "fans")) as [l|] eqn:Ha.
    + apply as_array_inv in Ha. rewrite (Hf l Ha) in Ho.
      destruct l; [assumption | discriminate].
    + specialize (Hf' eq_refl). exfalso.
      destruct (not_nullish _) in Hf'.
      * destruct Hf' as (s & Hsl). congruence.
      * unfold get in Ho. rewrite Hf' in Ho. fold (get data "fans") in Ho.
        rewrite Ho in Ha. discriminate.
  - intros Hd. rewrite (Hf [] Hd). reflexivity.
  - intros l Hl. eexists. split; [apply (Hs l Hl)|]. apply length_map.
  - intros l Hl. eexists. split; [apply (Hf l Hl)|]. apply length_map.
  - exact Hs'.
  - exact Hf'.
Qed.

(** C3 (as amended).  Without an array-shaped [sensors] and with
    [temp_cpu0], [temp_cpum], [temp_cpub] or [temp_sw] present, the output's
    [sensors] holds one entry per present flat field, named by the lookup
    table, in the order [temp_cpu0..temp_cpu3], [temp_cpum], [temp_cpub],
    [temp_sw], the cores [temp_cpu1..temp_cpu3] being listed only when
    [temp_cpu0] is present. *)
Theorem C3_flat_fields_to_sensors (data : gmap string jsval) :
  as_array (get data "sensors") = None ->
  not_nullish (get data "temp_cpu0") || not_nullish (get data "temp_cpum")
    || not_nullish (get data "temp_cpub") || not_nullish (get data "temp_sw") = true ->
  get (normalizeSystemInfo f data) "sensors" = VArr (gated_flat_sensors data).
Proof.
  intros Hn Hp. unfold get at 1. rewrite (sensors_of_flat f data Hn).
  rewrite legacy_sensors_gated.
  replace (Nat.ltb 0 (length (gated_flat_sensors data))) with true; [reflexivity|].
  unfold gated_flat_sensors, flat_entry.
  destruct (not_nullish (get data "temp_cpu0"));
  destruct (not_nullish (get data "temp_cpu1"));
  destruct (not_nullish (get data "temp_cpu2"));
  destruct (not_nullish (get data "temp_cpu3"));
  destruct (not_nullish (get data "temp_cpum"));
  destruct (not_nullish (get data "temp_cpub"));
  destruct (not_nullish (get data "temp_sw")); simpl in *;
    solve [reflexivity | discriminate].
Qed.

(** C6 (as amended).  With the record [{id:"fan0_speed", name:"",
    value:1200}] under [fans], the output has [fan_rpm = 1200] and
    [fans[0].name] is the entry of the fan table; under [sensors], as in the
    scenario, the record is named by the sensor rule and neither [fans] nor
    [fan_rpm] is written. *)
Theorem C6_fan_record_under_fans :
  get (normalizeSystemInfo f fan_among_fans) "fan_rpm" = VNum 1200
  /\ get (normalizeSystemInfo f fan_among_fans) "fans"
     = VArr [MkSensor "fan0_speed" (Some "Ventilateur 1"%string) (VNum 1200)]
  /\ table_lookup FAN_NAMES "fan0_speed" = Some "Ventilateur 1"%string
  /\ normalizeSystemInfo f fan_among_sensors !! "fan_rpm" = None
  /\ normalizeSystemInfo f fan_among_sensors !! "fans" = None
  /\ get (normalizeSystemInfo f fan_among_sensors) "sensors"
     = VArr [MkSensor "fan0_speed" (Some "Fan0 Speed"%string) (VNum 1200)].
Proof. repeat split; vm_compute; reflexivity. Qed.

(** C7 (the code departs from the claim).  Normalising the flat input of C1
    once leaves [temp_cpum] out; normalising the result again goes through
    the array branch and writes [temp_cpum = 42]: the two outputs differ on
    the compared fields. *)
Theorem C7_second_pass_adds_cpum :
  let once := normalizeSystemInfo f flat_cores in
  let twice := normalizeSystemInfo f once in
  get once "temp_cpum" = VUndefined
  /\ get twice "temp_cpum" = VNum 42
  /\ get twice "sensors" = get once "sensors"
  /\ ~ same_on compared_keys twice once.
Proof.
  intros once twice.
  assert (H1 : get once "temp_cpum" = VUndefined) by (vm_compute; reflexivity).
  assert (H2 : get twice "temp_cpum" = VNum 42) by (vm_compute; reflexivity).
  split; [exact H1|]. split; [exact H2|]. split.
  - vm_compute. reflexivity.
  - intros Hs.
    pose proof (proj1 (List.Forall_forall _ _) Hs "temp_cpum"%string) as Hm.
    cbv beta in Hm. rewrite H1, H2 in Hm.
    assert (VNum 42 = VUndefined); [|discriminate].
    apply Hm. unfold compared_keys. simpl. tauto.
Qed.

End NormalizerClaims.

(** C2 (counterexample).  [{sensors: []}] is normalised to an output whose
    [sensors] is the empty array; and [{temp_cpu1: 42}], which has flat
    source data, is normalised to an output without any [sensors]. *)
Lemma C2_empty_sensors_kept :
  ~ (forall f data, no_empty_array (normalizeSystemInfo f data))
  /\ ~ (forall f data, some_flat_temperature data = true ->
                       has_sensors (normalizeSystemInfo f data)).
Proof.
  split.
  - intros H. destruct (H no_coercion empty_sensors) as [Hs _].
    apply Hs. vm_compute. reflexivity.
  - intros H. destruct (H no_coercion lone_core1 eq_refl) as (s & l & Hsl).
    vm_compute in Hsl. discriminate.
Qed.

(** C2 (witness): the flat cores give an array with an element, the lone
    [temp_cpu1] leaves the key as it was. *)
Lemma C2_empty_array_only_passed_through_witness :
  has_sensors (normalizeSystemInfo no_coercion flat_cores)
  /\ normalizeSystemInfo no_coercion lone_core1 !! "sensors" = None.
Proof.
  split.
  - exact (proj1 (proj2 (proj2 (proj2 (proj2
             (C2_empty_array_only_passed_through no_coercion flat_cores)))))
           eq_refl).
  - exact (proj1 (proj2 (proj2 (proj2 (proj2
             (C2_empty_array_only_passed_through no_coercion lone_core1)))))
           eq_refl).
Defined.

(** C3 (counterexample).  [{temp_cpu1: 42}] has a flat temperature field
    and no array, and gets no [sensors] at all. *)
Lemma C3_lone_core_not_listed :
  ~ (forall f data,
       as_array (get data "sensors") = None ->
       spec_flat_sensors data <> [] ->
       get (normalizeSystemInfo f data) "sensors" = VArr (spec_flat_sensors data)).
Proof.
  intros H. specialize (H no_coercion lone_core1).
  assert (Hout : get (normalizeSystemInfo no_coercion lone_core1) "sensors" = VUndefined)
    by (vm_compute; reflexivity).
  rewrite Hout in H.
  assert (VUndefined = VArr (spec_flat_sensors lone_core1)); [|discriminate].
  apply H; [reflexivity|]. vm_compute. discriminate.
Qed.

(** C6 (counterexample).  With the fan record under [sensors] no [fan_rpm]
    is written, whatever the conversions. *)
Lemma C6_fan_among_sensors_no_fan_rpm :
  ~ (exists f, get (normalizeSystemInfo f fan_among_sensors) "fan_rpm" = VNum 1200).
Proof.
  intros [f H].
  assert (Hout : get (normalizeSystemInfo f fan_among_sensors) "fan_rpm" = VUndefined)
    by (vm_compute; reflexivity).
  congruence.
Qed.

(** Cleaning a display name twice is not cleaning it once: the second
    pattern can uncover a match of the first. *)
Example display_name_cleaned_again :
  getSensorDisplayName "probe" (Some doubly_prefixed_name) = "Température CPU"%string
  /\ getSensorDisplayName "probe" (Some "Température CPU"%string) = "CPU"%string.
Proof. split; vm_compute; reflexivity. Qed.

(** The array cores are away from the flat input without [temp_cpum]: the
    second pass leaves the mean of the first, and sensors with the ids and
    values of the first. *)
Lemma second_pass_same_array_cores :
  flat_cores_without_cpum array_cores = false
  /\ get (normalizeSystemInfo no_coercion
            (normalizeSystemInfo no_coercion array_cores)) "temp_cpum"
     = get (normalizeSystemInfo no_coercion array_cores) "temp_cpum"
  /\ same_readings
       (get (normalizeSystemInfo no_coercion
               (normalizeSystemInfo no_coercion array_cores)) "sensors")
       (get (normalizeSystemInfo no_coercion array_cores) "sensors").
Proof.
  split; [reflexivity|].
  destruct (second_pass_same no_coercion array_cores eq_refl)
    as (Htemp & _ & _ & Hsensors).
  split; [exact (Htemp "temp_cpum"%string eq_refl) | exact Hsensors].
Defined.

(** The flat cores are that input. *)
Lemma second_pass_adds_mean_flat_cores :
  flat_cores_without_cpum flat_cores = true
  /\ get (normalizeSystemInfo no_coercion
            (normalizeSystemInfo no_coercion flat_cores)) "temp_cpum"
     = round_mean no_coercion (core_temps flat_cores).
Proof.
  split; [reflexivity|].
  exact (proj2 (second_pass_adds_mean no_coercion flat_cores eq_refl)).
Defined.

(** C3 (witness): the flat cores, which have no array and have
    [temp_cpu0]. *)
Lemma C3_flat_fields_to_sensors_witness :
  as_array (get flat_cores "sensors") = None
  /\ not_nullish (get flat_cores "temp_cpu0") = true
  /\ get (normalizeSystemInfo no_coercion flat_cores) "sensors"
     = VArr (gated_flat_sensors flat_cores).
Proof.
  split; [reflexivity|]. split; [reflexivity|].
  apply (C3_flat_fields_to_sensors no_coercion flat_cores);
    vm_compute; reflexivity.
Defined.

(* ===================================================================== *)
(** ** Properties of the reboot scheduler *)
(* ===================================================================== *)

Section SchedulerClaims.
Import Scheduler.

Variable cron_validate : string -> bool.

(** Rebuilding the job of a schedule that is off, or has no day, leaves no
    task. *)
Lemma updateCronJob_idle (st : Service) :
  enabled (schedule st) = false \/ days (schedule st) = [] ->
  updateCronJob cron_validate st
  = {| schedule := schedule st; task := None; disk := disk st |}.
Proof.
  intros H. unfold updateCronJob. simpl.
  destruct H as [-> | ->]; [reflexivity|].
  simpl. now rewrite orb_true_r.
Qed.

(** C8.  An update whose merged record has [enabled: true] and [days: []]
    returns that record, keeps it as the current schedule, leaves no active
    task, and has written it to the file (a write that fails is caught: the
    file is then as before, and the call returns all the same). *)
Theorem C8_update_enabled_without_days (st : Service) (p : PartialSchedule) :
  enabled (merge (schedule st) p) = true ->
  days (merge (schedule st) p) = [] ->
  let merged := merge (schedule st) p in
  let st' := fst (updateSchedule cron_validate st p) in
  snd (updateSchedule cron_validate st p) = merged
  /\ getSchedule st' = merged
  /\ task st' = None
  /\ file (disk st') = (if writable (disk st) then Some (to_json merged)
                        else file (disk st)).
Proof.
  intros He Hd merged st'. subst st'. unfold updateSchedule, getSchedule.
  cbn [fst snd].
  rewrite updateCronJob_idle.
  - unfold saveSchedule. cbn.
    destruct (writable (disk st)); cbn; repeat split; reflexivity.
  - right. unfold saveSchedule. cbn.
    destruct (writable (disk st)); cbn; exact Hd.
Qed.

End SchedulerClaims.

(** C8 (witness): [{enabled: true, days: []}] sent to a service whose task
    runs on Mondays. *)
Lemma C8_update_enabled_without_days_witness :
  let merged := Scheduler.merge (Scheduler.schedule running_service) enable_no_day in
  let r := Scheduler.updateSchedule accept_all running_service enable_no_day in
  Scheduler.enabled merged = true
  /\ Scheduler.days merged = []
  /\ snd r = Scheduler.MkSchedule true [] "04:00"
  /\ Scheduler.task (fst r) = None
  /\ Scheduler.file (Scheduler.disk (fst r))
     = Some (Scheduler.to_json (Scheduler.MkSchedule true [] "04:00")).
Proof.
  pose proof (C8_update_enabled_without_days accept_all running_service
                enable_no_day eq_refl eq_refl) as (H1 & _ & H3 & H4).
  cbv zeta. split; [reflexivity|]. split; [reflexivity|].
  split; [exact H1|]. split; [exact H3 | exact H4].
Defined.

(* ===================================================================== *)
(** ** Properties of the client reducer *)
(* ===================================================================== *)

Section HistoryFacts.
Import Client.

Context {A : Type}.

Lemma slice_last_length (n : nat) (l : list A) :
  length (slice_last n l) = Nat.min (length l) n.
Proof. unfold slice_last. rewrite length_skipn. lia. Qed.

Lemma push_bounded_length (l : list A) (p : A) :
  length (push_bounded l p) = S (Nat.min (length l) 59).
Proof.
  unfold push_bounded. rewrite length_app, slice_last_length. simpl. lia.
Qed.

Lemma push_bounded_le (l : list A) (p : A) :
  (length (push_bounded l p) <= 60)%nat.
Proof. rewrite push_bounded_length. lia. Qed.

(** With room left nothing is evicted. *)
Lemma push_bounded_room (l : list A) (p : A) :
  (length l < 60)%nat -> push_bounded l p = l ++ [p].
Proof.
  intros H. unfold push_bounded, slice_last.
  replace (length l - 59)%nat with 0%nat by lia. reflexivity.
Qed.

(** A full buffer loses its first entry, the oldest. *)
Lemma push_bounded_full (l : list A) (p : A) :
  length l = 60%nat -> push_bounded l p = tl l ++ [p].
Proof.
  intros H. unfold push_bounded, slice_last. rewrite H.
  change (60 - 59)%nat with 1%nat. destruct l; reflexivity.
Qed.

Lemma push_bounded_evicts (l : list A) (p : A) :
  (length l <= 60)%nat -> push_bounded l p = evict_oldest l ++ [p].
Proof.
  intros H. unfold evict_oldest.
  destruct (Nat.eqb (length l) 60) eqn:E.
  - apply Nat.eqb_eq in E. now apply push_bounded_full.
  - apply Nat.eqb_neq in E. apply push_bounded_room. lia.
Qed.

End HistoryFacts.

Section ReducerClaims.
Import Client.

Variable f : list jsval -> jsval.

Lemma step_history_bound (s : Stores) (e : event) :
  (length (history (connection s)) <= 60)%nat ->
  (length (temperatureHistory (system s)) <= 60)%nat ->
  (length (history (connection (step f s e))) <= 60)%nat
  /\ (length (temperatureHistory (system (step f s e))) <= 60)%nat.
Proof.
  intros Hc Ht.
  destruct e as [now [[st|]|[d|]|]| |now [i|m|]]; cbn;
    split; solve [assumption | apply push_bounded_le].
Qed.

Lemma step_history_after (s : Stores) (e : event) :
  (length (history (connection s)) <= 60)%nat ->
  (length (temperatureHistory (system s)) <= 60)%nat ->
  history (connection (step f s e))
  = Notions.history_after (history (connection s)) (Notions.connection_push e)
  /\ temperatureHistory (system (step f s e))
     = Notions.history_after (temperatureHistory (system s))
                             (Notions.temperature_push f e).
Proof.
  intros Hc Ht.
  destruct e as [now [[st|]|[d|]|]| |now [i|m|]]; cbn; split;
    solve [ reflexivity | apply push_bounded_evicts; assumption ].
Qed.

(** C9.  From stores whose two histories hold at most 60 entries (they are
    created empty), after any sequence of events both histories hold at most
    60 entries, and any further event has exactly this effect on each of
    them: a [connection_status] message with data puts its point at the end
    of the connection history, a [system_status] message with data or a
    fetch that succeeds puts its point at the end of the temperature
    history, in both cases after the first, oldest, entry is evicted if the
    history held 60 entries, the other entries keeping their order; an event
    that pushes nothing on a history leaves it as it was. *)
Theorem C9_histories_bounded (events : list event) (s : Stores) :
  (length (history (connection s)) <= 60)%nat ->
  (length (temperatureHistory (system s)) <= 60)%nat ->
  ((length (history (connection (run f s events))) <= 60)%nat
   /\ (length (temperatureHistory (system (run f s events))) <= 60)%nat)
  /\ (forall e,
        history (connection (step f (run f s events) e))
        = Notions.history_after (history (connection (run f s events)))
                                (Notions.connection_push e)
        /\ temperatureHistory (system (step f (run f s events) e))
           = Notions.history_after
               (temperatureHistory (system (run f s events)))
               (Notions.temperature_push f e)).
Proof.
  revert s. unfold run.
  induction events as [|e events IH]; intros s Hc Ht.
  - simpl. split; [split; assumption|].
    intros e. now apply step_history_after.
  - simpl. destruct (step_history_bound s e Hc Ht) as [Hc' Ht'].
    now apply IH.
Qed.

(** C4 (as amended).  The point pushed for a [system_status] message has as
    main CPU temperature the rounded mean of the per-core values present
    whenever [temp_cpu0] is present, [temp_cpum] being present or not, and
    the message's [temp_cpum] otherwise; the snapshot's [temp_cpum] is the
    message's when present, and that value otherwise. *)
Theorem C4_cores_before_cpum (now : string) (d : SystemStatusData)
    (state : SystemState) :
  let cores := present [temp_cpu0 d; temp_cpu1 d; temp_cpu2 d; temp_cpu3 d] in
  let shown :=
    match temp_cpu0 d with
    | Some _ => VNum (round_div (sumZ cores) (Z.of_nat (length cores)))
    | None => of_opt (temp_cpum d)
    end in
  let state' := reduce_system_status now d state in
  (exists h p, temperatureHistory state' = h ++ [p] /\ cpuM p = shown)
  /\ match info state, info state' with
     | Some _, Some i' =>
       get i' "temp_cpum" = match temp_cpum d with Some m => VNum m | None => shown end
     | None, None => True
     | _, _ => False
     end.
Proof.
  intros cores shown state'.
  assert (Hshown : of_opt (message_cpuM d) = shown).
  { subst shown cores. unfold message_cpuM.
    destruct (temp_cpu0 d) as [c0|]; [|reflexivity].
    cbn [present length Nat.ltb Nat.leb]. reflexivity. }
  split.
  - exists (slice_last 59 (temperatureHistory state)). eexists.
    split; [reflexivity|]. exact Hshown.
  - subst state'. unfold reduce_system_status. cbn [info].
    destruct (info state) as [i|]; [|exact I].
    unfold merge_info, get.
    rewrite !(lookup_insert_ne _ _ "temp_cpum") by discriminate.
    rewrite lookup_insert_eq. cbn [default].
    rewrite <- Hshown. destruct (temp_cpum d); reflexivity.
Qed.

Lemma merge_info_other (prev : gmap string jsval) (d : SystemStatusData) (k : string) :
  message_get d k = None -> is_overwritten k = false ->
  get (merge_info prev d) k = get prev k.
Proof.
  unfold is_overwritten, overwritten_keys, message_get. cbn [existsb].
  intros Hm Hk. rewrite !orb_false_iff in Hk.
  destruct Hk as (H0 & H1 & H2 & H3 & H4 & H5 & H6 & H7 & _).
  rewrite H0, H1, H2, H3, H4, H5, H6, H7 in Hm.
  apply String.eqb_neq in H0, H1, H2, H3, H4, H5, H6, H7.
  unfold merge_info, get.
  destruct (String.eqb k "uptime_val") eqn:Hu.
  - apply String.eqb_eq in Hu. subst k. rewrite Hm.
    rewrite lookup_insert_eq. reflexivity.
  - apply String.eqb_neq in Hu.
    rewrite !lookup_insert_ne by congruence. reflexivity.
Qed.

(** C5 (as amended).  When a [system_status] message is merged into a known
    snapshot, a field that the message lacks keeps its previous value if it
    is not one of the eight readings [temp_cpu0..temp_cpu3], [temp_cpum],
    [temp_cpub], [temp_sw], [fan_rpm]; each of these eight takes the
    message's value, absent when the message lacks it, [temp_cpum] falling
    back on the recomputed main CPU temperature. *)
Theorem C5_merge_keeps_unlisted_fields (now : string) (d : SystemStatusData)
    (state : SystemState) (prev : gmap string jsval) (k : string) :
  info state = Some prev ->
  message_get d k = None ->
  is_overwritten k = false ->
  exists merged,
    info (reduce_system_status now d state) = Some merged
    /\ get merged k = get prev k
    /\ get merged "temp_cpu0" = of_opt (temp_cpu0 d)
    /\ get merged "temp_cpu1" = of_opt (temp_cpu1 d)
    /\ get merged "temp_cpu2" = of_opt (temp_cpu2 d)
    /\ get merged "temp_cpu3" = of_opt (temp_cpu3 d)
    /\ get merged "temp_cpum" = of_opt (nullish_or (temp_cpum d) (message_cpuM d))
    /\ get merged "temp_cpub" = of_opt (temp_cpub d)
    /\ get merged "temp_sw" = of_opt (temp_sw d)
    /\ get merged "fan_rpm" = of_opt (fan_rpm d).
Proof.
  intros Hi Hm Hk. exists (merge_info prev d).
  split; [unfold reduce_system_status; cbn [info]; now rewrite Hi|].
  split; [now apply merge_info_other|].
  unfold merge_info, get.
  repeat split;
    (rewrite !lookup_insert_ne by discriminate); now rewrite lookup_insert_eq.
Qed.

(** C10.  A [system_status] message that arrives while the store holds no
    snapshot leaves [info] null and still puts one point, built from the
    message, at the end of the temperature history. *)
Theorem C10_no_snapshot_stays_null (now : string) (d : SystemStatusData)
    (s : Stores) :
  info (system s) = None ->
  let s' := onmessage now (SystemStatusMsg (Some d)) s in
  info (system s') = None
  /\ temperatureHistory (system s')
     = slice_last 59 (temperatureHistory (system s))
       ++ [ {| time := now; cpuM := of_opt (message_cpuM d);
               cpuB := of_opt (temp_cpub d); sw := of_opt (temp_sw d) |} ]
  /\ connection s' = connection s.
Proof.
  intros Hi s'. subst s'. cbn [onmessage system connection].
  unfold reduce_system_status. cbn. rewrite Hi. repeat split.
Qed.

End ReducerClaims.

(** C4 (counterexample).  For a message with the four cores and
    [temp_cpum = 50], the reducer shows the mean of the cores, 42, where the
    rule of the specification gives 50; and for a message with [temp_cpu1]
    alone the snapshot gets no [temp_cpum], where the rule gives 42. *)
Lemma C4_cores_win_over_cpum :
  ~ (forall d, Client.message_cpuM d = spec_main_cpu d)
  /\ ~ (forall prev d, get (Client.merge_info prev d) "temp_cpum"
                       = Client.of_opt (spec_main_cpu d)).
Proof.
  split.
  - intros H. specialize (H cores_and_cpum). vm_compute in H. discriminate.
  - intros H. specialize (H known_info lone_core1_message).
    vm_compute in H. discriminate.
Qed.

(** C5 (counterexample).  A message without [temp_sw] merged into a snapshot
    with [temp_sw = 40] leaves [temp_sw] undefined. *)
Lemma C5_absent_reading_is_cleared :
  ~ (forall prev d k,
       message_get d k = None ->
       get (Client.merge_info prev d) k = get prev k).
Proof.
  intros H. specialize (H known_info empty_message "temp_sw"%string eq_refl).
  vm_compute in H. discriminate.
Qed.

(** C5 (witness): the field [model] of the snapshot survives a message
    without any field. *)
Lemma C5_merge_keeps_unlisted_fields_witness :
  message_get empty_message "model" = None
  /\ is_overwritten "model" = false
  /\ exists merged,
       Client.info (Client.reduce_system_status "12:00:00" empty_message
                      (system_with (Some known_info) [])) = Some merged
       /\ get merged "model" = VStr "ultra".
Proof.
  split; [reflexivity|]. split; [reflexivity|].
  destruct (C5_merge_keeps_unlisted_fields "12:00:00" empty_message
              (system_with (Some known_info) []) known_info "model"
              eq_refl eq_refl eq_refl) as (merged & H1 & H2 & _).
  exists merged. split; [exact H1|]. rewrite H2. reflexivity.
Defined.

(** C9 (witness): the stores as created take the messages 1 to 60 of each
    kind, which fill both histories; the 61st of each kind then evicts the
    point of the first and goes to the end, and the histories hold the
    points of the messages 2 to 61, in that order. *)
Lemma C9_histories_bounded_witness :
  let full := Client.run no_coercion fresh_stores (Notions.numbered_events 60) in
  (length (Client.history (Client.connection fresh_stores)) <= 60)%nat
  /\ (length (Client.temperatureHistory (Client.system fresh_stores)) <= 60)%nat
  /\ Client.history (Client.connection full)
     = map Notions.numbered_stat (seq 1 60)
  /\ Client.temperatureHistory (Client.system full)
     = map Notions.numbered_point (seq 1 60)
  /\ Client.history (Client.connection
        (Client.step no_coercion full (Notions.numbered_status 61)))
     = map Notions.numbered_stat (seq 2 60)
  /\ Client.temperatureHistory (Client.system
        (Client.step no_coercion full (Notions.numbered_reading 61)))
     = map Notions.numbered_point (seq 2 60).
Proof.
  cbv zeta.
  assert (Hc : (length (Client.history (Client.connection fresh_stores)) <= 60)%nat)
    by (vm_compute; lia).
  assert (Ht : (length (Client.temperatureHistory
                          (Client.system fresh_stores)) <= 60)%nat)
    by (vm_compute; lia).
  split; [exact Hc|]. split; [exact Ht|].
  split; [vm_compute; reflexivity|]. split; [vm_compute; reflexivity|].
  destruct (C9_histories_bounded no_coercion (Notions.numbered_events 60)
              fresh_stores Hc Ht) as [_ Hstep].
  split.
  - rewrite (proj1 (Hstep (Notions.numbered_status 61))).
    vm_compute. reflexivity.
  - rewrite (proj2 (Hstep (Notions.numbered_reading 61))).
    vm_compute. reflexivity.
Defined.

(** C10 (witness): a message into the system store as created. *)
Lemma C10_no_snapshot_stays_null_witness :
  Client.info (Client.system fresh_stores) = None
  /\ Client.info (Client.system
       (Client.onmessage "12:00:00" (Client.SystemStatusMsg (Some cores_and_cpum))
          fresh_stores)) = None.
Proof.
  split; [reflexivity|].
  exact (proj1 (C10_no_snapshot_stays_null "12:00:00" cores_and_cpum
                  fresh_stores eq_refl)).
Defined.

(* ===================================================================== *)
(** ** Further properties of the normaliser *)
(* ===================================================================== *)

Section NormalizerExtras.
Import Notions.

Variable f : list jsval -> jsval.

Lemma normalizer_key_false (k : string) :
  normalizer_key k = false ->
  String.prefix "temp_" k = false /\ k <> "sensors"%string
  /\ k <> "fans"%string /\ k <> "fan_rpm"%string.
Proof.
  unfold normalizer_key. rewrite !orb_false_iff.
  intros (((Hp & H1) & H2) & H3).
  apply String.eqb_neq in H1, H2, H3. auto.
Qed.

(** X1.  A field that the normaliser neither reads nor writes (any key but
    [sensors], [fans], [fan_rpm] and the keys in [temp_]) is in the output
    exactly as in the input: present with the same value, or absent. *)
Theorem other_fields_kept (data : gmap string jsval) (k : string) :
  normalizer_key k = false ->
  normalizeSystemInfo f data !! k = data !! k.
Proof.
  intros Hk. destruct (normalizer_key_false k Hk) as (Hp & Hs & Hf & Hr).
  unfold normalizeSystemInfo.
  rewrite fans_part_lookup by assumption.
  now apply sensors_part_lookup_fans.
Qed.

Lemma get_insert_other (r : gmap string jsval) (k j : string) (v : jsval) :
  k <> j -> get (<[k := v]> r) j = get r j.
Proof. intros H. unfold get. now rewrite lookup_insert_ne. Qed.

Lemma extract_sensor_insert (r : gmap string jsval) (s : Sensor) (k : string) (v : jsval) :
  String.prefix "temp_" k = false ->
  extract_sensor (<[k := v]> r) s = <[k := v]> (extract_sensor r s).
Proof.
  intros Hk. unfold extract_sensor.
  assert (H1 : forall j, String.prefix "temp_" j = true -> j <> k)
    by (intros j Hj; eapply prefix_differs; eassumption).
  destruct (String.prefix "temp_" (id s)) eqn:Hid;
  destruct (id_is s "t1" || id_is s "cpu_ap");
  destruct (id_is s "t2" || id_is s "cpu_cp");
  destruct (id_is s "t3" || id_is s "switch");
  repeat (rewrite (insert_insert_ne _ _ k) by (apply H1; first [assumption | reflexivity]));
  reflexivity.
Qed.

Lemma extract_sensors_insert (l : list Sensor) (r : gmap string jsval) (k : string) (v : jsval) :
  String.prefix "temp_" k = false ->
  fold_left extract_sensor l (<[k := v]> r) = <[k := v]> (fold_left extract_sensor l r).
Proof.
  intros Hk. revert r. induction l as [|s l IH]; intros r; simpl; [reflexivity|].
  now rewrite extract_sensor_insert, IH.
Qed.

Lemma derive_cpum_insert (r : gmap string jsval) (k : string) (v : jsval) :
  String.prefix "temp_" k = false ->
  derive_cpum f (<[k := v]> r) = <[k := v]> (derive_cpum f r).
Proof.
  intros Hk.
  assert (H1 : forall j, String.prefix "temp_" j = true -> k <> j)
    by (intros j Hj Heq; subst; congruence).
  unfold derive_cpum, core_temps.
  rewrite !get_insert_other by (apply H1; reflexivity).
  repeat match goal with
  | |- context [if ?c then _ else _] => destruct c
  end; try reflexivity.
  apply insert_insert_ne. intros Heq. now apply (H1 "temp_cpum"%string).
Qed.


Lemma legacy_sensors_insert (data : gmap string jsval) (k : string) (v : jsval) :
  String.prefix "temp_" k = false ->
  legacy_sensors (<[k := v]> data) = legacy_sensors data.
Proof.
  intros Hk. unfold legacy_sensors, push_flat.
  now rewrite !get_insert_other by (intros ->; discriminate).
Qed.

Lemma sensors_part_insert (data : gmap string jsval) (k : string) (v : jsval) :
  normalizer_key k = false ->
  normalize_sensors_part f (<[k := v]> data) (<[k := v]> data)
  = <[k := v]> (normalize_sensors_part f data data).
Proof.
  intros Hk. destruct (normalizer_key_false k Hk) as (Hp & Hs & Hf & Hr).
  unfold normalize_sensors_part.
  rewrite get_insert_other by congruence.
  destruct (as_array (get data "sensors")) as [l|].
  - rewrite (insert_insert_ne _ "sensors" k) by congruence.
    now rewrite extract_sensors_insert, derive_cpum_insert.
  - rewrite legacy_sensors_insert by assumption.
    destruct (Nat.ltb 0 (length (legacy_sensors data))); [|reflexivity].
    apply insert_insert_ne. congruence.
Qed.

Lemma fans_part_insert (data r : gmap string jsval) (k : string) (v : jsval) :
  normalizer_key k = false ->
  normalize_fans_part (<[k := v]> data) (<[k := v]> r)
  = <[k := v]> (normalize_fans_part data r).
Proof.
  intros Hk. destruct (normalizer_key_false k Hk) as (Hp & Hs & Hf & Hr).
  unfold normalize_fans_part.
  rewrite !get_insert_other by congruence.
  destruct (as_array (get data "fans")) as [rawFans|].
  - destruct (main_fan rawFans);
      repeat (rewrite (insert_insert_ne _ _ k) by congruence); reflexivity.
  - destruct (not_nullish (get data "fan_rpm")); [|reflexivity].
    apply insert_insert_ne. congruence.
Qed.

(** X2.  The normaliser does not look at the other fields: adding or
    changing one in the input changes that field of the output and nothing
    else. *)
Theorem other_fields_ignored (data : gmap string jsval) (k : string) (v : jsval) :
  normalizer_key k = false ->
  normalizeSystemInfo f (<[k := v]> data) = <[k := v]> (normalizeSystemInfo f data).
Proof.
  intros Hk. unfold normalizeSystemInfo.
  rewrite sensors_part_insert by assumption.
  now apply fans_part_insert.
Qed.

Lemma writes_key_prefix (s : Sensor) (k : string) :
  writes_key s k = true -> String.prefix "temp_" k = true.
Proof.
  unfold writes_key. rewrite !orb_true_iff, !andb_true_iff.
  intros [[[[Hp He]|[_ He]]|[_ He]]|[_ He]]; apply String.eqb_eq in He; subst;
    [assumption | reflexivity..].
Qed.

Lemma last_write_app (l1 l2 : list Sensor) (k : string) (before : option jsval) :
  last_write (l1 ++ l2) k before = last_write l2 k (last_write l1 k before).
Proof.
  revert before. induction l1 as [|s l1 IH]; intros before; simpl; [reflexivity|].
  apply IH.
Qed.

Lemma last_write_none (l : list Sensor) (k : string) (before : option jsval) :
  forallb (fun s => negb (writes_key s k)) l = true ->
  last_write l k before = before.
Proof.
  revert before. induction l as [|s l IH]; intros before; simpl; [reflexivity|].
  rewrite andb_true_iff, negb_true_iff. intros [-> Hl]. now apply IH.
Qed.

(** X3.  With an array of sensors, a flat field holds the value of the last
    sensor of the array that maps to it, by an id in [temp_] or by a short
    code; for [temp_cpum] this is so when that value is not null. *)
Theorem last_sensor_sets_flat_field (data : gmap string jsval)
    (l1 l2 : list Sensor) (s : Sensor) (k : string) :
  as_array (get data "sensors") = Some (l1 ++ s :: l2) ->
  writes_key s k = true ->
  forallb (fun s' => negb (writes_key s' k)) l2 = true ->
  k <> "temp_cpum"%string \/ not_nullish (value s) = true ->
  get (normalizeSystemInfo f data) k = value s.
Proof.
  intros Ha Hw Hl2 Hk.
  pose proof (writes_key_prefix s k Hw) as Hp.
  unfold get. rewrite normalize_lookup_temp by assumption.
  unfold normalize_sensors_part. rewrite Ha.
  set (F := fold_left extract_sensor (l1 ++ s :: l2) _).
  assert (HF : F !! k = Some (value s)).
  { subst F. rewrite loop_lookup_temp by assumption.
    rewrite last_write_app. simpl. rewrite Hw. now apply last_write_none. }
  destruct (String.eqb_spec k "temp_cpum") as [->|Hne].
  - destruct Hk as [Hk|Hk]; [congruence|].
    assert (HFg : get F "temp_cpum" = value s) by (unfold get; now rewrite HF).
    rewrite derive_cpum_idle; [now rewrite HF|].
    rewrite HFg, Hk. apply andb_false_r.
  - rewrite derive_cpum_lookup by assumption. now rewrite HF.
Qed.

(** X4.  An array of sensors is only renamed: the output array has the
    same ids and the same values, in the same order, duplicates included,
    and every entry has a name. *)
Theorem array_only_renamed (data : gmap string jsval) (l : list Sensor) :
  as_array (get data "sensors") = Some l ->
  exists l', get (normalizeSystemInfo f data) "sensors" = VArr l'
             /\ map id l' = map id l /\ map value l' = map value l
             /\ Forall (fun s => name s <> None) l'.
Proof.
  intros Ha. exists (map normalize_sensor l).
  split; [unfold get; now rewrite (sensors_of_array f data l Ha)|].
  split; [apply normalize_sensor_idem_readings|].
  split; [apply normalize_sensor_idem_readings|].
  apply Forall_forall. intros s Hs. apply list_elem_of_In, in_map_iff in Hs.
  destruct Hs as (s0 & <- & _). discriminate.
Qed.

Lemma sumZ_from (l : list Z) (a : Z) : (fold_left Z.add l a = a + sumZ l)%Z.
Proof.
  unfold sumZ. revert a. induction l as [|x l IH]; intros a; simpl; [lia|].
  rewrite (IH (a + x)%Z), (IH (0 + x)%Z). lia.
Qed.

Lemma sumZ_cons (x : Z) (l : list Z) : (sumZ (x :: l) = x + sumZ l)%Z.
Proof. unfold sumZ at 1. simpl. rewrite sumZ_from. lia. Qed.

Lemma sumQ_from (l : list Q) (a : Q) :
  (fold_left Qplus l a == a + sumQ l)%Q.
Proof.
  unfold sumQ. revert a. induction l as [|q l IH]; intros a; simpl.
  - ring.
  - rewrite (IH (a + q)%Q), (IH (0 + q)%Q). ring.
Qed.

Lemma sumQ_cons (q : Q) (l : list Q) : (sumQ (q :: l) == q + sumQ l)%Q.
Proof. unfold sumQ at 1. simpl. rewrite sumQ_from. ring. Qed.

Lemma sumQ_inject (l : list Z) : (sumQ (map inject_Z l) == inject_Z (sumZ l))%Q.
Proof.
  induction l as [|z l IH].
  - reflexivity.
  - cbn [map]. rewrite sumQ_cons, IH, sumZ_cons, !inject_Z_plus. ring.
Qed.

Lemma sumQ_between (lo hi : Z) (l : list Q) :
  between_Q lo hi l ->
  (inject_Z (Z.of_nat (length l)) * inject_Z lo <= sumQ l
   <= inject_Z (Z.of_nat (length l)) * inject_Z hi)%Q.
Proof.
  induction 1 as [|q l [Hlo Hhi] _ [IHlo IHhi]].
  - split; cbn; unfold Qle; simpl; lia.
  - rewrite sumQ_cons. cbn [length]. rewrite Nat2Z.inj_succ.
    unfold Z.succ. rewrite inject_Z_plus.
    split.
    + assert (E : ((inject_Z (Z.of_nat (length l)) + inject_Z 1) * inject_Z lo
                   == inject_Z lo + inject_Z (Z.of_nat (length l)) * inject_Z lo)%Q)
        by ring.
      rewrite E. now apply Qplus_le_compat.
    + assert (E : ((inject_Z (Z.of_nat (length l)) + inject_Z 1) * inject_Z hi
                   == inject_Z hi + inject_Z (Z.of_nat (length l)) * inject_Z hi)%Q)
        by ring.
      rewrite E. now apply Qplus_le_compat.
Qed.

(** [Math.round] of an integer is that integer. *)
Lemma round_Q_integer (z : Z) : round_Q (inject_Z z) = z.
Proof.
  unfold round_Q, Qfloor, inject_Z, Qplus. cbn [Qnum Qden].
  change (Z.pos (1 * 2)) with 2%Z.
  rewrite Z.mul_1_l.
  symmetry. apply (Z.div_unique _ 2 z 1); lia.
Qed.

(** The rounded mean of readings is between any two integers that bound
    them. *)
Lemma round_mean_Q_between (lo hi : Z) (l : list Q) :
  l <> [] -> between_Q lo hi l ->
  (lo <= round_mean_Q l <= hi)%Z.
Proof.
  intros Hne Hb. destruct (sumQ_between lo hi l Hb) as [Hlo Hhi].
  set (n := inject_Z (Z.of_nat (length l))) in *.
  assert (Hn : (0 < n)%Q).
  { subst n. change 0%Q with (inject_Z 0). rewrite <- Zlt_Qlt.
    destruct l; [congruence | cbn; lia]. }
  assert (Hm : (inject_Z lo <= sumQ l / n <= inject_Z hi)%Q).
  { split.
    - apply Qle_shift_div_l; [exact Hn|]. now rewrite Qmult_comm.
    - apply Qle_shift_div_r; [exact Hn|]. now rewrite Qmult_comm. }
  unfold round_mean_Q. fold n. destruct Hm as [Hm1 Hm2]. split.
  - rewrite <- (Qfloor_Z lo). unfold round_Q. apply Qfloor_resp_le.
    rewrite <- (Qplus_0_r (inject_Z lo)).
    apply Qplus_le_compat; [exact Hm1 | discriminate].
  - rewrite <- (round_Q_integer hi) at 1. unfold round_Q. apply Qfloor_resp_le.
    apply Qplus_le_compat; [exact Hm2 | apply Qle_refl].
Qed.

(** On integers, [round_div] is the rounding of the exact quotient. *)
Lemma round_Q_div (s n : Z) :
  (0 < n)%Z -> round_Q (inject_Z s / inject_Z n) = round_div s n.
Proof.
  intros Hn. unfold round_Q, round_div.
  assert (E : (inject_Z s / inject_Z n + (1 # 2)
               == (2 * s + n) # (Z.to_pos (2 * n)))%Q).
  { destruct n as [|p|p]; try lia.
    unfold Qeq, Qdiv, Qmult, Qplus, Qinv, inject_Z. cbn [Qnum Qden Z.to_pos Z.mul].
    lia. }
  rewrite (Qfloor_comp _ _ E). unfold Qfloor.
  rewrite Z2Pos.id by lia. reflexivity.
Qed.

Lemma round_mean_Q_integers (l : list Z) :
  l <> [] ->
  round_mean_Q (map inject_Z l) = round_div (sumZ l) (Z.of_nat (length l)).
Proof.
  intros Hne. unfold round_mean_Q. rewrite length_map.
  rewrite <- round_Q_div by (destruct l; [congruence | cbn; lia]).
  unfold round_Q. apply Qfloor_comp. now rewrite sumQ_inject.
Qed.

(** [round_div] gives the integer nearest to the quotient, a half going
    up. *)
Lemma round_div_nearest (s n : Z) :
  (0 < n)%Z ->
  (2 * s - n < 2 * n * round_div s n <= 2 * s + n)%Z.
Proof.
  intros Hn. unfold round_div.
  pose proof (Z.mul_div_le (2 * s + n) (2 * n) ltac:(lia)).
  pose proof (Z.mul_succ_div_gt (2 * s + n) (2 * n) ltac:(lia)).
  lia.
Qed.

Lemma all_numbers_length (l : list jsval) (ns : list Z) :
  all_numbers l = Some ns -> length ns = length l.
Proof.
  revert ns. induction l as [|v l IH]; intros ns; simpl.
  - now intros [= <-].
  - destruct v; try discriminate.
    destruct (all_numbers l) as [ns'|]; [|discriminate].
    intros [= <-]. cbn. now rewrite (IH ns').
Qed.

(** X5.  With an array of sensors and no main CPU temperature, neither flat
    in the input nor among the sensors, when [temp_cpu0] is there and the
    cores are integers that a JavaScript number holds exactly, [temp_cpum]
    is set to the integer nearest to the mean of the cores present, a half
    going up: [Math.round] of the exact quotient of their sum by their
    number. *)
Theorem derived_mean_of_cores (data : gmap string jsval) (l : list Sensor)
    (ns : list Z) :
  as_array (get data "sensors") = Some l ->
  not_nullish (get data "temp_cpum") = false ->
  forallb (fun s => negb (writes_key s "temp_cpum")) l = true ->
  not_nullish (get (normalizeSystemInfo f data) "temp_cpu0") = true ->
  all_numbers (core_temps (normalizeSystemInfo f data)) = Some ns ->
  exact_readings ns = true ->
  let n := Z.of_nat (length ns) in
  exists m,
    get (normalizeSystemInfo f data) "temp_cpum" = VNum m
    /\ m = round_mean_Q (map inject_Z ns)
    /\ (2 * sumZ ns - n < 2 * n * m <= 2 * sumZ ns + n)%Z.
Proof.
  intros Ha Hm Hl H0 Hns _ n. subst n.
  set (out := normalizeSystemInfo f data) in *.
  set (F := fold_left extract_sensor l
              (<["sensors" := VArr (map normalize_sensor l)]> data)).
  assert (Hout : temp_agree out (derive_cpum f F)).
  { intros k Hk. subst out. rewrite normalize_lookup_temp by assumption.
    unfold normalize_sensors_part. now rewrite Ha. }
  assert (HFm : get F "temp_cpum" = get data "temp_cpum").
  { unfold get. subst F. rewrite loop_lookup_temp by reflexivity.
    now rewrite last_write_none. }
  assert (Hcore : forall k, String.prefix "temp_" k = true -> k <> "temp_cpum"%string ->
                    get out k = get F k).
  { intros k Hk Hne. rewrite (temp_agree_get _ _ _ Hout Hk).
    unfold get. now rewrite derive_cpum_lookup. }
  assert (HF0 : not_nullish (get F "temp_cpu0") = true)
    by (rewrite <- Hcore by (reflexivity || discriminate); exact H0).
  assert (Hcores : core_temps out = core_temps F).
  { unfold core_temps. now rewrite !Hcore by (reflexivity || discriminate). }
  assert (Hne : ns <> []).
  { intros ->. apply all_numbers_length in Hns. rewrite Hcores in Hns.
    pose proof (core_temps_nonempty F HF0) as Hlen.
    rewrite <- Hns in Hlen. discriminate. }
  exists (round_div (sumZ ns) (Z.of_nat (length ns))). split; [|split].
  - rewrite (temp_agree_get out _ "temp_cpum" Hout eq_refl).
    rewrite derive_cpum_fires; [|assumption|now rewrite HFm].
    unfold get. rewrite lookup_insert_eq. cbn [default].
    unfold round_mean. rewrite <- Hcores, Hns. reflexivity.
  - symmetry. now apply round_mean_Q_integers.
  - apply round_div_nearest. destruct ns; [congruence | cbn; lia].
Qed.


Lemma find_skip (l1 l2 : list Sensor) :
  forallb (fun x => negb (is_main_fan x)) l1 = true ->
  List.find is_main_fan (l1 ++ l2) = List.find is_main_fan l2.
Proof.
  induction l1 as [|x l1 IH]; simpl; [reflexivity|].
  rewrite andb_true_iff, negb_true_iff. intros [-> H]. now apply IH.
Qed.

Lemma find_none (l : list Sensor) :
  forallb (fun x => negb (is_main_fan x)) l = true ->
  List.find is_main_fan l = None.
Proof.
  intros H. rewrite <- (app_nil_r l). now rewrite find_skip.
Qed.

(** X6.  With an array of fans, [fan_rpm] is the value of the first fan
    whose id is [fan0_speed], [main], [fan0] or [fan], and of the first fan
    of the array when there is none; the array itself is only renamed. *)
Theorem main_fan_sets_fan_rpm (data : gmap string jsval)
    (l1 l2 : list Sensor) (m : Sensor) :
  as_array (get data "fans") = Some (l1 ++ m :: l2) ->
  forallb (fun x => negb (is_main_fan x)) l1 = true ->
  is_main_fan m = true
    \/ (l1 = [] /\ forallb (fun x => negb (is_main_fan x)) l2 = true) ->
  get (normalizeSystemInfo f data) "fan_rpm" = value m
  /\ exists l', get (normalizeSystemInfo f data) "fans" = VArr l'
                /\ map id l' = map id (l1 ++ m :: l2)
                /\ map value l' = map value (l1 ++ m :: l2).
Proof.
  intros Ha Hl1 Hm. split.
  - unfold get. rewrite fan_rpm_of, Ha. unfold main_fan.
    rewrite find_skip by assumption. simpl.
    destruct (is_main_fan m) eqn:Hmain; [reflexivity|].
    destruct Hm as [Hm|[-> Hl2]]; [discriminate|].
    now rewrite find_none.
  - exists (map normalize_fan (l1 ++ m :: l2)).
    split; [unfold get; now rewrite (fans_of_array f data _ Ha)|].
    rewrite !map_map. split; reflexivity.
Qed.

Lemma upper_not_underscore (c : ascii) :
  Nat.eqb (code c) 95 = false -> Nat.eqb (code (upper c)) 95 = false.
Proof.
  destruct c as [[] [] [] [] [] [] [] []]; vm_compute; congruence.
Qed.

Lemma capitalize_no_underscore (b : bool) (s : string) :
  no_underscore s = true -> no_underscore (capitalize_from b s) = true.
Proof.
  revert b. induction s as [|c s IH]; intros b; simpl; [reflexivity|].
  rewrite !andb_true_iff, !negb_true_iff. intros [Hc Hs].
  split; [|now apply IH].
  destruct (is_word c && negb b); [now apply upper_not_underscore | assumption].
Qed.

Lemma spaces_no_underscore (s : string) :
  no_underscore (underscores_to_spaces s) = true.
Proof.
  induction s as [|c s IH]; simpl; [reflexivity|].
  rewrite IH, andb_true_r.
  destruct (Nat.eqb (code c) 95) eqn:E; [reflexivity|]. now rewrite E.
Qed.

(** X7.  A sensor or a fan whose id is in no table, and is none of the names
    that the tables inherit from [Object.prototype] ([constructor],
    [toString], [__proto__], ...), and that comes without a name, or with an
    empty one, gets a name made from its id, without any underscore. *)
Theorem name_from_id (i : string) :
  inherited_key i = false ->
  (table_lookup SENSOR_NAMES i = None ->
     no_underscore (getSensorDisplayName i None) = true
     /\ no_underscore (getSensorDisplayName i (Some ""%string)) = true)
  /\ (table_lookup FAN_NAMES i = None ->
        no_underscore (getFanDisplayName i None) = true
        /\ no_underscore (getFanDisplayName i (Some ""%string)) = true).
Proof.
  intros _. split; intros Ht.
  - unfold getSensorDisplayName. rewrite Ht. cbn [truthy_name is_empty].
    split; apply capitalize_no_underscore, spaces_no_underscore.
  - unfold getFanDisplayName. rewrite Ht. cbn [truthy_name is_empty].
    split; apply capitalize_no_underscore, spaces_no_underscore.
Qed.

End NormalizerExtras.

(* ===================================================================== *)
(** ** Further properties of the reboot scheduler *)
(* ===================================================================== *)

Section SchedulerExtras.
Import Notions Scheduler.

Variable v : string -> bool.

Lemma updateCronJob_task (st : Service) :
  updateCronJob v st
  = {| schedule := schedule st; task := wanted_task v (schedule st); disk := disk st |}.
Proof.
  unfold updateCronJob, wanted_task. cbn [schedule task disk].
  destruct (enabled (schedule st)); cbn; [|reflexivity].
  destruct (Nat.eqb (length (days (schedule st))) 0); cbn; [reflexivity|].
  destruct (v (cron_expression (schedule st))); reflexivity.
Qed.

Lemma saveSchedule_schedule (st : Service) :
  schedule (saveSchedule st) = schedule st.
Proof. unfold saveSchedule. destruct (writable (disk st)); reflexivity. Qed.

Lemma updateSchedule_state (st : Service) (p : PartialSchedule) :
  fst (updateSchedule v st p)
  = {| schedule := merge (schedule st) p;
       task := wanted_task v (merge (schedule st) p);
       disk := if writable (disk st)
               then {| file := Some (to_json (merge (schedule st) p)); writable := true |}
               else disk st |}.
Proof.
  unfold updateSchedule. cbn [fst]. rewrite updateCronJob_task.
  unfold saveSchedule. cbn [schedule task disk].
  destruct (writable (disk st)) eqn:Hw; cbn [schedule task disk]; reflexivity.
Qed.

(** X10.  After the service is built and after every update, whatever the
    file and the requests, the running task is the one the current schedule
    calls for: none when the schedule is off, has no day or gives an
    expression that [cron.validate] rejects, and otherwise the task of the
    current cron expression; a task of an earlier schedule never survives. *)
Theorem task_follows_schedule (d : Disk) (ps : list PartialSchedule) :
  let st := after_updates v (new_service v d) ps in
  task st = wanted_task v (schedule st).
Proof.
  cbv zeta. unfold after_updates.
  assert (H0 : task (new_service v d) = wanted_task v (schedule (new_service v d))).
  { unfold new_service. now rewrite updateCronJob_task. }
  revert H0. generalize (new_service v d). clear d.
  induction ps as [|p ps IH]; intros st H0; cbn [fold_left]; [exact H0|].
  apply IH. now rewrite updateSchedule_state.
Qed.

Lemma load_saved (s : RebootSchedule) (w : bool) :
  loadSchedule {| file := Some (to_json s); writable := w |} = s.
Proof. destruct s. reflexivity. Qed.

(** X11.  What an update writes is what a restart reads: on a disk that
    takes the write, the service built from the disk after an update is the
    service as the update left it, schedule, task and file. *)
Theorem restart_after_update (st : Service) (p : PartialSchedule) :
  writable (disk st) = true ->
  new_service v (disk (fst (updateSchedule v st p))) = fst (updateSchedule v st p).
Proof.
  intros Hw. rewrite updateSchedule_state, Hw. cbn [disk].
  unfold new_service. rewrite updateCronJob_task. cbn [schedule disk].
  now rewrite load_saved.
Qed.

(** X12.  When the write fails, the update still takes effect in memory and
    returns the merged record, the file is left as it was, and a restart
    goes back to what the file held. *)
Theorem failed_write_is_swallowed (st : Service) (p : PartialSchedule) :
  writable (disk st) = false ->
  snd (updateSchedule v st p) = merge (schedule st) p
  /\ getSchedule (fst (updateSchedule v st p)) = merge (schedule st) p
  /\ disk (fst (updateSchedule v st p)) = disk st
  /\ new_service v (disk (fst (updateSchedule v st p))) = new_service v (disk st).
Proof.
  intros Hw.
  assert (Hs : snd (updateSchedule v st p) = schedule (fst (updateSchedule v st p)))
    by reflexivity.
  rewrite Hs. unfold getSchedule. rewrite updateSchedule_state, Hw. cbn.
  repeat split.
Qed.

(** X13.  Without a file, or with a file that does not parse, the service
    starts with the default schedule, disabled at 03:00 without a day, and
    with no task; nothing is written. *)
Theorem start_without_file (d : Disk) :
  file d = None \/ file d = Some Garbage ->
  new_service v d = {| schedule := DEFAULT_SCHEDULE; task := None; disk := d |}.
Proof.
  intros H. unfold new_service. rewrite updateCronJob_task.
  unfold loadSchedule. destruct H as [-> | ->]; reflexivity.
Qed.

Lemma merge_then (s : RebootSchedule) (p1 p2 : PartialSchedule) :
  merge (merge s p1) p2 = merge s (then_partial p1 p2).
Proof.
  unfold merge, then_partial, Client.nullish_or. cbn.
  destruct (p_enabled p2), (p_days p2), (p_time p2); reflexivity.
Qed.

(** X14.  Two updates in a row leave the service as one update with the
    fields of both, those of the second winning: same schedule, same task,
    same file, and the same record returned. *)
Theorem updates_compose (st : Service) (p1 p2 : PartialSchedule) :
  updateSchedule v (fst (updateSchedule v st p1)) p2
  = updateSchedule v st (then_partial p1 p2).
Proof.
  assert (H : forall a b, fst (updateSchedule v a b) = fst (updateSchedule v a b)
                          /\ snd (updateSchedule v a b) = schedule (fst (updateSchedule v a b)))
    by (intros; split; reflexivity).
  apply injective_projections.
  - rewrite !updateSchedule_state. cbn [schedule disk]. rewrite merge_then.
    destruct (writable (disk st)) eqn:Hw; cbn [writable]; rewrite ?Hw; reflexivity.
  - rewrite (proj2 (H _ p2)), (proj2 (H st _)).
    rewrite !updateSchedule_state. cbn [schedule]. apply merge_then.
Qed.

Lemma string_app_nil_r (s : string) : (s +:+ EmptyString)%string = s.
Proof.
  induction s as [|c s IH]; [reflexivity|].
  change (String c (s +:+ EmptyString) = String c s). now rewrite IH.
Qed.

Lemma string_app_snoc (a : string) (c : ascii) (b : string) :
  ((a +:+ String c EmptyString) +:+ b)%string = (a +:+ String c b)%string.
Proof.
  induction a as [|x a IH]; [reflexivity|].
  change (String x ((a +:+ String c EmptyString) +:+ b) = String x (a +:+ String c b)).
  now rewrite IH.
Qed.

Lemma split_no_colon (cur s : string) :
  no_colon s = true -> split_colon cur s = [(cur +:+ s)%string].
Proof.
  revert cur. induction s as [|c s IH]; intros cur; simpl.
  - intros _. now rewrite string_app_nil_r.
  - rewrite andb_true_iff, negb_true_iff. intros [-> Hs].
    rewrite IH by assumption. now rewrite string_app_snoc.
Qed.

Lemma split_at_colon (cur h rest : string) :
  no_colon h = true ->
  split_colon cur (h +:+ ":" +:+ rest)
  = (cur +:+ h)%string :: split_colon EmptyString rest.
Proof.
  revert cur. induction h as [|c h IH]; intros cur; simpl.
  - intros _. now rewrite string_app_nil_r.
  - rewrite andb_true_iff, negb_true_iff. intros [-> Hh].
    rewrite IH by assumption. now rewrite string_app_snoc.
Qed.

(** X15.  For a time [h:m], the cron expression is [m h * * days], the days
    joined by commas; a third part after a second colon is ignored. *)
Theorem cron_expression_of_time (e : bool) (ds : list Z) (h m tail : string) :
  no_colon h = true -> no_colon m = true ->
  tail = EmptyString \/ (exists r, tail = ":" +:+ r)%string ->
  cron_expression {| enabled := e; days := ds; time := h +:+ ":" +:+ m +:+ tail |}
  = (m +:+ " " +:+ h +:+ " * * " +:+ join_comma ds)%string.
Proof.
  intros Hh Hm Ht. unfold cron_expression. cbn [time days].
  rewrite (split_at_colon EmptyString h (m +:+ tail) Hh).
  assert (Hparts : exists l, split_colon EmptyString (m +:+ tail) = m :: l).
  { destruct Ht as [-> | [r ->]].
    - exists []. rewrite string_app_nil_r. now rewrite split_no_colon.
    - eexists. now rewrite (split_at_colon EmptyString m r Hm). }
  destruct Hparts as [l ->]. reflexivity.
Qed.

(** X16.  For a time without a colon the minute is missing and the cron
    expression starts with the word [undefined]. *)
Theorem cron_expression_without_colon (e : bool) (ds : list Z) (t : string) :
  no_colon t = true ->
  cron_expression {| enabled := e; days := ds; time := t |}
  = ("undefined " +:+ t +:+ " * * " +:+ join_comma ds)%string.
Proof.
  intros Ht. unfold cron_expression. cbn [time days].
  rewrite (split_no_colon EmptyString t Ht). reflexivity.
Qed.

End SchedulerExtras.

(* ===================================================================== *)
(** ** Further properties of the client stores *)
(* ===================================================================== *)

Section ClientExtras.
Import Notions Client.

Variable f : list jsval -> jsval.

Lemma slice_last_all {A : Type} (n : nat) (l : list A) :
  (length l <= n)%nat -> slice_last n l = l.
Proof.
  intros H. unfold slice_last. replace (length l - n)%nat with 0%nat by lia.
  reflexivity.
Qed.

Lemma slice_last_app {A : Type} (n : nat) (a b : list A) :
  slice_last n (slice_last n a ++ b) = slice_last n (a ++ b).
Proof.
  unfold slice_last. rewrite !length_app, length_skipn.
  destruct (Nat.le_gt_cases (length a) n) as [Hle|Hgt].
  - replace (length a - n)%nat with 0%nat by lia. cbn [skipn].
    f_equal. lia.
  - replace (length a - (length a - n) + length b - n)%nat with (length b) by lia.
    replace (length a + length b - n)%nat
      with (length b + (length a - n))%nat by lia.
    rewrite <- (skipn_skipn (length b) (length a - n) (a ++ b)).
    f_equal. rewrite skipn_app.
    replace (length a - n - length a)%nat with 0%nat by lia.
    reflexivity.
Qed.

Lemma push_bounded_slice {A : Type} (h : list A) (p : A) :
  push_bounded h p = slice_last 60 (h ++ [p]).
Proof.
  unfold push_bounded, slice_last. rewrite length_app. cbn [length].
  replace (length h + 1 - 60)%nat with (length h - 59)%nat by lia.
  rewrite skipn_app.
  replace (length h - 59 - length h)%nat with 0%nat by lia. reflexivity.
Qed.

Lemma pushes_slice {A : Type} (ps h : list A) :
  (length h <= 60)%nat ->
  fold_left push_bounded ps h = slice_last 60 (h ++ ps).
Proof.
  revert h. induction ps as [|p ps IH]; intros h Hh; cbn [fold_left].
  - rewrite app_nil_r. symmetry. now apply slice_last_all.
  - rewrite IH by apply push_bounded_le.
    rewrite push_bounded_slice, slice_last_app. now rewrite <- app_assoc.
Qed.

Lemma run_status_events (s : Stores) (msgs : list (string * SystemStatusData)) :
  temperatureHistory (system (run f s (status_events msgs)))
  = fold_left push_bounded (map (fun m => message_point (fst m) (snd m)) msgs)
              (temperatureHistory (system s))
  /\ connection (run f s (status_events msgs)) = connection s.
Proof.
  unfold run, status_events. revert s.
  induction msgs as [|[now d] msgs IH]; intros s; cbn [map fold_left fst snd];
    [split; reflexivity|].
  destruct (IH (step f s (Message now (SystemStatusMsg (Some d))))) as [H1 H2].
  rewrite H1, H2. split; reflexivity.
Qed.

(** X17.  The temperature history after a stream of [system_status] messages is
    the last 60 of the points before followed by the points of the
    messages, in order; the connection store is not touched. *)
Theorem history_is_last_60 (s : Stores) (msgs : list (string * SystemStatusData)) :
  (length (temperatureHistory (system s)) <= 60)%nat ->
  temperatureHistory (system (run f s (status_events msgs)))
  = slice_last 60 (temperatureHistory (system s)
                   ++ map (fun m => message_point (fst m) (snd m)) msgs)
  /\ connection (run f s (status_events msgs)) = connection s.
Proof.
  intros Hh. destruct (run_status_events s msgs) as [H1 H2].
  split; [|exact H2]. rewrite H1. now apply pushes_slice.
Qed.

(** X18.  A [connection_status] message puts at the end of the history the two
    rates in KB/s rounded to the nearest integer, halves up; the status
    is replaced and an error shown before is cleared. *)
Theorem rates_rounded (now : string) (st : ConnectionStatus)
    (state : ConnectionState) :
  let state' := reduce_connection_status now st state in
  status state' = Some st /\ conn_error state' = None
  /\ conn_rest state' = conn_rest state
  /\ exists h p, history state' = h ++ [p]
       /\ ns_time p = now
       /\ (2 * rate_down st - 1024 < 2048 * download p <= 2 * rate_down st + 1024)%Z
       /\ (2 * rate_up st - 1024 < 2048 * upload p <= 2 * rate_up st + 1024)%Z.
Proof.
  cbv zeta. unfold reduce_connection_status. cbn [status conn_error conn_rest history].
  repeat split.
  eexists _, _. split; [reflexivity|]. cbn [ns_time download upload].
  unfold round_div. split; [reflexivity|].
  pose proof (Z.mul_div_le (2 * rate_down st + 1024) 2048 eq_refl).
  pose proof (Z.mul_succ_div_gt (2 * rate_down st + 1024) 2048 eq_refl).
  pose proof (Z.mul_div_le (2 * rate_up st + 1024) 2048 eq_refl).
  pose proof (Z.mul_succ_div_gt (2 * rate_up st + 1024) 2048 eq_refl).
  change (2 * 1024)%Z with 2048%Z. lia.
Qed.

Lemma present_Q_inject (l : list (option Z)) :
  present_Q (map (option_map inject_Z) l) = map inject_Z (present l).
Proof.
  induction l as [|[z|] l IH]; cbn; [reflexivity| |exact IH]. now rewrite IH.
Qed.

(** X19.  The main CPU temperature of a message, on readings that need not
    be integers.  On integers it is the one of the reducer.  When
    [temp_cpu0] is there it is an integer, between any two integers that
    bound the cores present (it need not be between the cores themselves:
    40.2 and 40.4 give 40). *)
Theorem message_mean_between :
  (forall d : SystemStatusData,
     message_cpuM_Q (readings_of d) = option_map inject_Z (message_cpuM d))
  /\ (forall (r : CpuReadings) (q0 : Q) (lo hi : Z),
        q_cpu0 r = Some q0 ->
        between_Q lo hi (present_Q [q_cpu0 r; q_cpu1 r; q_cpu2 r; q_cpu3 r]) ->
        exists m, message_cpuM_Q r = Some (inject_Z m) /\ (lo <= m <= hi)%Z).
Proof.
  split.
  - intros d. unfold message_cpuM_Q, message_cpuM, readings_of.
    cbn [q_cpu0 q_cpu1 q_cpu2 q_cpu3 q_cpum].
    destruct (temp_cpu0 d) as [c0|] eqn:H0; [|reflexivity].
    cbv zeta.
    change [option_map inject_Z (Some c0); option_map inject_Z (temp_cpu1 d);
            option_map inject_Z (temp_cpu2 d); option_map inject_Z (temp_cpu3 d)]
      with (map (option_map inject_Z)
                [Some c0; temp_cpu1 d; temp_cpu2 d; temp_cpu3 d]).
    rewrite present_Q_inject, length_map.
    cbn [option_map present length Nat.ltb Nat.leb].
    change (inject_Z c0 :: map inject_Z (present [temp_cpu1 d; temp_cpu2 d; temp_cpu3 d]))
      with (map inject_Z (c0 :: present [temp_cpu1 d; temp_cpu2 d; temp_cpu3 d])).
    rewrite round_mean_Q_integers by discriminate. reflexivity.
  - intros r q0 lo hi H0 Hb. unfold message_cpuM_Q. rewrite H0 in *.
    cbn [present_Q length Nat.ltb Nat.leb] in *.
    eexists. split; [reflexivity|].
    apply (round_mean_Q_between lo hi); [discriminate | exact Hb].
Qed.


Lemma filter_of_opt (l : list (option Z)) :
  List.filter not_nullish (map of_opt l) = map VNum (present l).
Proof.
  induction l as [|[n|] l IH]; cbn; [reflexivity| |exact IH]. now rewrite IH.
Qed.

Lemma all_numbers_nums (ns : list Z) : all_numbers (map VNum ns) = Some ns.
Proof. induction ns as [|n ns IH]; cbn; [reflexivity|]. now rewrite IH. Qed.

Lemma round_mean_nums (ns : list Z) :
  ApiNormalizer.round_mean f (map VNum ns)
  = VNum (round_div (sumZ ns) (Z.of_nat (length ns))).
Proof. unfold ApiNormalizer.round_mean. now rewrite all_numbers_nums. Qed.

Lemma merge_info_get (prev : gmap string jsval) (d : SystemStatusData) :
  get (merge_info prev d) "sensors" = get prev "sensors"
  /\ get (merge_info prev d) "temp_cpu0" = of_opt (temp_cpu0 d)
  /\ get (merge_info prev d) "temp_cpu1" = of_opt (temp_cpu1 d)
  /\ get (merge_info prev d) "temp_cpu2" = of_opt (temp_cpu2 d)
  /\ get (merge_info prev d) "temp_cpu3" = of_opt (temp_cpu3 d)
  /\ get (merge_info prev d) "temp_cpum"
     = of_opt (nullish_or (temp_cpum d) (message_cpuM d))
  /\ get (merge_info prev d) "temp_cpub" = of_opt (temp_cpub d)
  /\ get (merge_info prev d) "temp_sw" = of_opt (temp_sw d).
Proof.
  unfold merge_info, get.
  repeat split;
    (rewrite !lookup_insert_ne by discriminate);
    rewrite ?lookup_insert_eq; reflexivity.
Qed.

Lemma not_nullish_of_opt (o : option Z) :
  not_nullish (of_opt o) = match o with Some _ => true | None => false end.
Proof. destruct o; reflexivity. Qed.

(** X20.  The point that [fetchSystemInfo] would build from a snapshot just
    merged by the reducer is the point that the reducer pushed, when the
    snapshot holds no sensor array: the two paths agree on flat readings. *)
Theorem fetch_agrees_with_reducer (now : string) (prev : gmap string jsval)
    (d : SystemStatusData) :
  sensor_list prev = [] ->
  fetched_point f now (merge_info prev d) = message_point now d.
Proof.
  intros Hs. unfold fetched_point, message_point.
  destruct (merge_info_get prev d) as (Hsen & H0 & H1 & H2 & H3 & Hm & Hb & Hw).
  rewrite Hsen. fold (sensor_list prev). rewrite Hs.
  rewrite H0, H1, H2, H3, Hm, Hb, Hw.
  change [of_opt (temp_cpu0 d); of_opt (temp_cpu1 d);
          of_opt (temp_cpu2 d); of_opt (temp_cpu3 d)]
    with (map of_opt [temp_cpu0 d; temp_cpu1 d; temp_cpu2 d; temp_cpu3 d]).
  rewrite filter_of_opt, length_map, round_mean_nums.
  cbn [List.filter List.find length Nat.ltb Nat.leb not_nullish].
  unfold or_if_nullish. cbn [not_nullish].
  f_equal. unfold message_cpuM.
  destruct (temp_cpu0 d) as [c0|]; cbn [of_opt not_nullish present length Nat.ltb Nat.leb].
  - reflexivity.
  - destruct (temp_cpum d) as [m|]; reflexivity.
Qed.


(** X21.  The server normalises a flat reading without cores and the client
    fetches it: the CPU value of the point pushed by [fetchSystemInfo] is
    the rounded mean of [temp_cpum] and [temp_cpub], since both ids start
    with [temp_cpu], where the reducer shows [temp_cpum] for the same
    readings. *)
Theorem fetch_averages_cpu_and_box (now : string) (data : gmap string jsval)
    (m b : Z) (d : SystemStatusData) :
  as_array (get data "sensors") = None ->
  not_nullish (get data "temp_cpu0") = false ->
  get data "temp_cpum" = VNum m ->
  get data "temp_cpub" = VNum b ->
  temp_cpu0 d = None -> temp_cpum d = Some m -> temp_cpub d = Some b ->
  let p := fetched_point f now (ApiNormalizer.normalizeSystemInfo f data) in
  cpuM p = VNum (round_div (m + b) 2)
  /\ cpuB p = VNum b
  /\ cpuM (message_point now d) = VNum m
  /\ cpuB (message_point now d) = VNum b.
Proof.
  intros Ha H0 Hm Hb Hd0 Hdm Hdb p.
  assert (Hs : get (ApiNormalizer.normalizeSystemInfo f data) "sensors"
               = VArr (ApiNormalizer.legacy_sensors data)).
  { unfold get. rewrite (sensors_of_flat f data Ha).
    unfold ApiNormalizer.legacy_sensors, ApiNormalizer.push_flat.
    rewrite H0, Hm, Hb. cbn [not_nullish].
    destruct (not_nullish (get data "temp_sw")); reflexivity. }
  subst p. unfold fetched_point. rewrite Hs. cbn [as_array].
  unfold ApiNormalizer.legacy_sensors, ApiNormalizer.push_flat.
  rewrite H0, Hm, Hb. cbn [not_nullish app].
  unfold message_point, message_cpuM. rewrite Hd0, Hdm, Hdb.
  cbn [cpuM cpuB of_opt].
  destruct (not_nullish (get data "temp_sw")); cbn;
    (replace (sumZ [m; b]) with (m + b)%Z by (unfold sumZ; cbn; lia));
    repeat split.
Qed.

End ClientExtras.

(* ===================================================================== *)
(** ** The schedule form and its round trip *)
(* ===================================================================== *)

Section ModalExtras.
Import Notions ScheduleModal.

Variable v : string -> bool.

Lemma existsb_eqb_In (day : Z) (l : list Z) :
  existsb (Z.eqb day) l = true <-> In day l.
Proof.
  rewrite existsb_exists. split.
  - intros (x & Hx & He). apply Z.eqb_eq in He. now subst.
  - intros H. exists day. split; [assumption | apply Z.eqb_refl].
Qed.

Lemma NoDup_snoc (x : Z) (l : list Z) :
  List.NoDup l -> ~ In x l -> List.NoDup (l ++ [x]).
Proof.
  induction 1 as [|y l Hy Hl IH]; intros Hx; cbn.
  - constructor; [intros [] | constructor].
  - constructor.
    + intros H. apply in_app_or in H as [H|[H|[]]]; [contradiction|].
      apply Hx. now left.
    + apply IH. intros H. apply Hx. now right.
Qed.

(** X22.  Choosing a day in the form flips that day and no other: it is among
    the days afterwards exactly when it was not before, every other day
    stays in or out, and a list without repetition stays so. *)
Theorem toggle_flips_one_day (day : Z) (prev : list Z) :
  (In day (toggle day prev) <-> ~ In day prev)
  /\ (forall d, d <> day -> (In d (toggle day prev) <-> In d prev))
  /\ (List.NoDup prev -> List.NoDup (toggle day prev)).
Proof.
  unfold toggle.
  destruct (existsb (Z.eqb day) prev) eqn:E.
  - apply existsb_eqb_In in E. split; [|split].
    + split.
      * intros H. apply filter_In in H as [_ H'].
        rewrite Z.eqb_refl in H'. discriminate.
      * intros H. contradiction.
    + intros d Hd. rewrite filter_In, negb_true_iff, Z.eqb_neq. tauto.
    + intros Hn. now apply List.NoDup_filter.
  - assert (Hnot : ~ In day prev).
    { intros H. apply existsb_eqb_In in H. congruence. }
    split; [|split].
    + split; [intros _; assumption|].
      intros _. apply in_or_app. right. now left.
    + intros d Hd. rewrite in_app_iff. cbn. intuition congruence.
    + intros Hn. now apply NoDup_snoc.
Qed.

(** X23.  Saving the form replaces the whole schedule: whatever the service held,
    the server then holds the three fields of the form, answers with them,
    the store keeps that answer and reports success, and the form filled
    again from the store is the form that was saved. *)
Theorem saved_form_round_trip (st : Scheduler.Service) (form : Form)
    (state : Client.SystemState) :
  let posted := SystemRoute.post_reboot_schedule v st (save_payload form) in
  let stored := store_updateSchedule (Some (snd posted)) state in
  Scheduler.getSchedule (fst posted)
    = Scheduler.MkSchedule (enabled form) (days form) (time form)
  /\ Client.schedule (fst stored) = Some (Scheduler.getSchedule (fst posted))
  /\ snd stored = true
  /\ sync_form (Client.schedule (fst stored)) initial_form = form
  /\ SystemRoute.get_reboot_schedule (fst posted) = snd posted.
Proof.
  cbv zeta. unfold SystemRoute.post_reboot_schedule, SystemRoute.get_reboot_schedule.
  cbn [fst snd]. unfold store_updateSchedule. cbn [SystemRoute.sr_success SystemRoute.sr_result fst snd Client.schedule].
  assert (Hs : snd (Scheduler.updateSchedule v st (save_payload form))
               = Scheduler.MkSchedule (enabled form) (days form) (time form)).
  { change (snd (Scheduler.updateSchedule v st (save_payload form)))
      with (Scheduler.schedule (fst (Scheduler.updateSchedule v st (save_payload form)))).
    rewrite updateSchedule_state. reflexivity. }
  assert (Hg : Scheduler.getSchedule (fst (Scheduler.updateSchedule v st (save_payload form)))
               = snd (Scheduler.updateSchedule v st (save_payload form)))
    by reflexivity.
  rewrite Hg, Hs. repeat split. destruct form; reflexivity.
Qed.

End ModalExtras.

(* ===================================================================== *)
(** ** The system route and the capabilities *)
(* ===================================================================== *)

Section RouteExtras.
Import Notions SystemRoute.

Variable f : list jsval -> jsval.

Lemma js_or_null (a : jsval) :
  js_or a VNull = VNull \/ truthy (js_or a VNull) = true.
Proof. unfold js_or. destruct (truthy a) eqn:E; [right; exact E | left; reflexivity]. Qed.

Lemma js_or_null2 (a b : jsval) :
  js_or a (js_or b VNull) = VNull \/ truthy (js_or a (js_or b VNull)) = true.
Proof.
  destruct (truthy a) eqn:E.
  - right. unfold js_or at 1. now rewrite E.
  - unfold js_or at 1 3. rewrite E. apply js_or_null.
Qed.

(** X24.  When both calls succeed, the body of [GET /api/system] is the system
    info normalised, with three fields taken from the version info:
    [box_model_name] (or else [box_model]), [device_name] and
    [api_version], each one a truthy value or [null], never [undefined];
    every other field is what normalising the system info alone gives. *)
Theorem system_body (system version : gmap string jsval) (e e' : jsval) :
  let body := get_system f (MkApiResult true (Some system) e)
                           (MkApiResult true (Some version) e') in
  exists out,
    body = MkApiResult true (Some out) e
    /\ get out "box_model_name"
       = js_or (get version "box_model_name") (js_or (get version "box_model") VNull)
    /\ get out "device_name" = js_or (get version "device_name") VNull
    /\ get out "api_version" = js_or (get version "api_version") VNull
    /\ Forall (fun k => get out k = VNull \/ truthy (get out k) = true)
              ["box_model_name"; "device_name"; "api_version"]%string
    /\ forall k, k <> "box_model_name"%string -> k <> "device_name"%string ->
                 k <> "api_version"%string ->
                 out !! k = ApiNormalizer.normalizeSystemInfo f system !! k.
Proof.
  cbv zeta. unfold get_system. cbn [success result error].
  eexists. split; [reflexivity|].
  unfold add_version, ApiNormalizer.normalizeSystemInfo.
  rewrite !(sensors_part_insert f), !fans_part_insert by reflexivity.
  assert (H1 : forall r a b c,
            get (<["api_version" := a]> (<["device_name" := b]>
                   (<["box_model_name" := c]> r))) "box_model_name" = c).
  { intros. unfold get. rewrite !lookup_insert_ne by discriminate.
    now rewrite lookup_insert_eq. }
  assert (H2 : forall r a b c,
            get (<["api_version" := a]> (<["device_name" := b]>
                   (<["box_model_name" := c]> r))) "device_name" = b).
  { intros. unfold get. rewrite !lookup_insert_ne by discriminate.
    now rewrite lookup_insert_eq. }
  assert (H3 : forall r a b c,
            get (<["api_version" := a]> (<["device_name" := b]>
                   (<["box_model_name" := c]> r))) "api_version" = a).
  { intros. unfold get. now rewrite lookup_insert_eq. }
  rewrite H1, H2, H3.
  split; [reflexivity|]. split; [reflexivity|]. split; [reflexivity|].
  split.
  - constructor; [rewrite H1; apply js_or_null2|].
    constructor; [rewrite H2; apply js_or_null|].
    constructor; [rewrite H3; apply js_or_null|]. constructor.
  - intros k K1 K2 K3. now rewrite !lookup_insert_ne by congruence.
Qed.

End RouteExtras.

Section CapabilityExtras.
Import Notions ApiCapabilities.

Lemma digit_char (c : ascii) :
  is_digit c = true ->
  ws1 c = false /\ Nat.eqb (code c) 45 = false /\ Nat.eqb (code c) 43 = false
  /\ (forall c2, ws2 c c2 = false) /\ (forall c2 c3, ws3 c c2 c3 = false).
Proof.
  destruct c as [[] [] [] [] [] [] [] []]; cbn; intros H; try discriminate;
    repeat split; intros; reflexivity.
Qed.

Lemma skip_ws_digit (c : ascii) (r : string) :
  is_digit c = true -> skip_ws (String c r) = String c r.
Proof.
  intros H. destruct (digit_char c H) as (H1 & _ & _ & H2 & H3).
  cbn [skip_ws]. rewrite H1.
  destruct r as [|c2 r]; [reflexivity|]. rewrite H2.
  destruct r as [|c3 r]; [reflexivity|]. now rewrite H3.
Qed.

Lemma read_digits_uint (d : Decimal.uint) (a : Z) :
  read_digits (Some a) (NilEmpty.string_of_uint d)
  = Some (a * 10 ^ Z.of_N (Unsigned.usize d)
          + Z.of_N (Unsigned.of_lu (Decimal.rev d)))%Z.
Proof.
  revert a. induction d; intros a; [cbn; f_equal; lia | ..];
    cbn [NilEmpty.string_of_uint read_digits];
    match goal with
    | |- context [is_digit ?c] => change (is_digit c) with true
    end; cbn iota; rewrite IHd; f_equal;
    match goal with
    | |- context [Decimal.rev (?D d)] =>
      change (Decimal.rev (D d)) with (Decimal.revapp d (D Decimal.Nil));
      rewrite (Unsigned.of_lu_revapp d (D Decimal.Nil))
    end;
    cbn [Unsigned.usize Unsigned.of_lu default];
    rewrite N2Z.inj_succ, Z.pow_succ_r by lia;
    rewrite N2Z.inj_add, N2Z.inj_mul, N2Z.inj_pow;
    generalize (Z.of_N (Unsigned.usize d)) (Z.of_N (Unsigned.of_lu (Decimal.rev d)));
    intros u r; unfold digit_value;
    match goal with
    | |- context [Z.of_nat ?n] =>
      let x := eval vm_compute in (Z.of_nat n) in change (Z.of_nat n) with x
    end;
    match goal with
    | |- context [Z.of_N ?n] =>
      let x := eval vm_compute in (Z.of_N n) in change (Z.of_N n) with x
    end;
    cbv [Datatypes.id]; change (Z.of_N 10) with 10%Z; ring.
Qed.

Lemma read_digits_pos (p : positive) :
  exists c r, NilZero.string_of_uint (Pos.to_uint p) = String c r
              /\ is_digit c = true
              /\ read_digits None (String c r) = Some (Z.pos p).
Proof.
  pose proof (Unsigned.of_to p) as Hp. rewrite Unsigned.of_uint_alt in Hp.
  unfold NilZero.string_of_uint.
  destruct (Pos.to_uint p) as [|d|d|d|d|d|d|d|d|d|d] eqn:E;
    [cbn in Hp; discriminate | ..];
    cbn [NilEmpty.string_of_uint];
    eexists _, _; (split; [reflexivity|]); (split; [reflexivity|]);
    cbn [read_digits];
    match goal with
    | |- context [is_digit ?c] => change (is_digit c) with true
    end; cbn iota; rewrite read_digits_uint; f_equal;
    match type of Hp with
    | context [Decimal.rev (?D d)] =>
      change (Decimal.rev (D d)) with (Decimal.revapp d (D Decimal.Nil)) in Hp;
      rewrite (Unsigned.of_lu_revapp d (D Decimal.Nil)) in Hp
    end;
    cbn [Unsigned.of_lu] in Hp;
    apply (f_equal Z.of_N) in Hp;
    rewrite N2Z.inj_add, N2Z.inj_mul, N2Z.inj_pow in Hp;
    cbn [default]; unfold digit_value;
    match goal with
    | |- context [Z.of_nat ?n] =>
      let x := eval vm_compute in (Z.of_nat n) in change (Z.of_nat n) with x
    end;
    match type of Hp with
    | context [(Z.of_N ?n * _)%Z] =>
      let x := eval vm_compute in (Z.of_N n) in change (Z.of_N n) with x in Hp
    end;
    change (Z.of_N (N.pos p)) with (Z.pos p) in Hp; change (Z.of_N 10) with 10%Z in Hp;
    cbv [Datatypes.id]; lia.
Qed.

Lemma substring_all (s : string) : String.substring 0 (String.length s) s = s.
Proof. induction s as [|c s IH]; cbn; [reflexivity|]. now rewrite IH. Qed.

Lemma parseInt10_decimal (n : Z) :
  (0 < n)%Z -> parseInt10 (Scheduler.string_of_Z n) = Some n.
Proof.
  intros Hn. destruct n as [|p|p]; try lia.
  unfold Scheduler.string_of_Z. cbn [Z.to_int NilZero.string_of_int].
  destruct (read_digits_pos p) as (c & r & -> & Hc & Hr).
  unfold parseInt10. rewrite skip_ws_digit by assumption.
  destruct (digit_char c Hc) as (_ & -> & -> & _). exact Hr.
Qed.

(** X25.  For a version written [v] and a positive number, the capabilities are
    read off the number: sensor and fan arrays from 8 on, pagination from
    15 on; the version string is given back as it was. *)
Theorem capabilities_of_version (n : Z) :
  (0 < n)%Z ->
  detectApiCapabilities (Some ("v" +:+ Scheduler.string_of_Z n)%string)
  = {| version := ("v" +:+ Scheduler.string_of_Z n)%string;
       hasSensorsArray := Z.leb 8 n;
       hasFansArray := Z.leb 8 n;
       supportsPagination := Z.leb 15 n |}.
Proof.
  intros Hn. unfold detectApiCapabilities.
  change ("v" +:+ Scheduler.string_of_Z n)%string
    with (String "v" (Scheduler.string_of_Z n)).
  cbn [truthy_name is_empty default].
  assert (Hr : replace_first "v" "" (String "v" (Scheduler.string_of_Z n))
               = Scheduler.string_of_Z n).
  { generalize (Scheduler.string_of_Z n). intros s.
    destruct s as [|a s]; [reflexivity|].
    pose proof (substring_all (String a s)) as Hsub.
    cbn in Hsub |- *. rewrite ?Nat.sub_0_r. exact Hsub. }
  cbv [Datatypes.id]. rewrite Hr, (parseInt10_decimal n Hn).
  unfold or_four. destruct (Z.eqb_spec n 0); [lia | reflexivity].
Qed.

(** X26.  Whatever the version string, fans and sensors go together and
    pagination is never announced without the arrays; without a version,
    or with an empty one, the answer is that of [v4]: no capability. *)
Theorem capabilities_ordered (apiVersion : option string) :
  hasFansArray (detectApiCapabilities apiVersion)
    = hasSensorsArray (detectApiCapabilities apiVersion)
  /\ (supportsPagination (detectApiCapabilities apiVersion) = true ->
      hasSensorsArray (detectApiCapabilities apiVersion) = true)
  /\ (truthy_name apiVersion = None ->
      detectApiCapabilities apiVersion = MkCapabilities "v4" false false false).
Proof.
  split; [reflexivity|]. split.
  - unfold detectApiCapabilities. cbn [supportsPagination hasSensorsArray].
    rewrite !Z.leb_le. lia.
  - intros H. unfold detectApiCapabilities. rewrite H. reflexivity.
Qed.

End CapabilityExtras.

(* ===================================================================== *)
(** ** The further properties on sample inputs *)
(* ===================================================================== *)

(** X1 on [box_model_name], a field of the vendor. *)
Lemma other_fields_kept_witness :
  Notions.normalizer_key "box_model_name" = false
  /\ normalizeSystemInfo no_coercion Notions.with_model !! "box_model_name"
     = Some (VStr "Freebox Ultra").
Proof.
  split; [reflexivity|].
  rewrite (other_fields_kept no_coercion Notions.with_model "box_model_name" eq_refl).
  reflexivity.
Defined.

(** X2 on the same field. *)
Lemma other_fields_ignored_witness :
  Notions.normalizer_key "box_model_name" = false
  /\ normalizeSystemInfo no_coercion Notions.with_model
     = <["box_model_name" := VStr "Freebox Ultra"]>
         (normalizeSystemInfo no_coercion array_cores).
Proof.
  split; [reflexivity|].
  exact (other_fields_ignored no_coercion array_cores "box_model_name"
           (VStr "Freebox Ultra") eq_refl).
Defined.

(** X3: the short code [t2], coming after [temp_cpub], gives [temp_cpub]. *)
Lemma last_sensor_sets_flat_field_witness :
  writes_key (MkSensor "t2" None (VNum 45)) "temp_cpub" = true
  /\ get (normalizeSystemInfo no_coercion Notions.box_then_alias) "temp_cpub" = VNum 45.
Proof.
  split; [reflexivity|].
  apply (last_sensor_sets_flat_field no_coercion Notions.box_then_alias
           [MkSensor "temp_cpub" None (VNum 40)]
           [MkSensor "temp_sw" None (VNum 30)]
           (MkSensor "t2" None (VNum 45)) "temp_cpub");
    [reflexivity | reflexivity | reflexivity | left; discriminate].
Defined.

(** X4 on the array cores. *)
Lemma array_only_renamed_witness :
  exists l', get (normalizeSystemInfo no_coercion array_cores) "sensors" = VArr l'
             /\ map id l' = ["temp_cpu0"; "temp_cpu1"; "temp_cpu2"; "temp_cpu3"]%string.
Proof.
  destruct (array_only_renamed no_coercion array_cores _ eq_refl)
    as (l' & H1 & H2 & _).
  exists l'. split; [exact H1 | exact H2].
Defined.

(** X5 on the array cores: 42, between 40 and 43. *)
Lemma derived_mean_of_cores_witness :
  get (normalizeSystemInfo no_coercion array_cores) "temp_cpum" = VNum 42
  /\ (2 * 166 - 4 < 2 * 4 * 42 <= 2 * 166 + 4)%Z.
Proof.
  destruct (derived_mean_of_cores no_coercion array_cores _ [40; 42; 41; 43]%Z
              eq_refl eq_refl eq_refl eq_refl eq_refl eq_refl)
    as (m & H1 & H2 & H3).
  assert (E : m = 42%Z) by (rewrite H2; vm_compute; reflexivity).
  rewrite E in H1, H3. split; [exact H1 | exact H3].
Defined.

(** X6: the second fan has a main id. *)
Lemma main_fan_sets_fan_rpm_witness :
  get (normalizeSystemInfo no_coercion Notions.two_fans) "fan_rpm" = VNum 1200.
Proof.
  exact (proj1 (main_fan_sets_fan_rpm no_coercion Notions.two_fans
                  [MkSensor "fan1_speed" None (VNum 900)] []
                  (MkSensor "fan0" None (VNum 1200))
                  eq_refl eq_refl (or_introl eq_refl))).
Defined.

(** X7 on an id of neither table. *)
Lemma name_from_id_witness :
  inherited_key "temp_nvme_1" = false
  /\ table_lookup SENSOR_NAMES "temp_nvme_1" = None
  /\ Notions.no_underscore (getSensorDisplayName "temp_nvme_1" None) = true
  /\ getSensorDisplayName "temp_nvme_1" None = "Nvme 1"%string.
Proof.
  split; [reflexivity|]. split; [reflexivity|].
  split; [|reflexivity].
  exact (proj1 (proj1 (name_from_id "temp_nvme_1" eq_refl) eq_refl)).
Defined.

(** X11 on the running service. *)
Lemma restart_after_update_witness :
  Scheduler.writable (Scheduler.disk running_service) = true
  /\ Scheduler.new_service accept_all
       (Scheduler.disk (fst (Scheduler.updateSchedule accept_all running_service
                               Notions.set_time)))
     = fst (Scheduler.updateSchedule accept_all running_service Notions.set_time).
Proof.
  split; [reflexivity|].
  exact (restart_after_update accept_all running_service Notions.set_time eq_refl).
Defined.

(** X12 on a disk that refuses writes. *)
Lemma failed_write_is_swallowed_witness :
  Scheduler.writable (Scheduler.disk Notions.readonly_service) = false
  /\ snd (Scheduler.updateSchedule accept_all Notions.readonly_service Notions.set_time)
     = Scheduler.MkSchedule false [] "04:30"
  /\ Scheduler.file (Scheduler.disk
       (fst (Scheduler.updateSchedule accept_all Notions.readonly_service
               Notions.set_time))) = None.
Proof.
  split; [reflexivity|].
  pose proof (failed_write_is_swallowed accept_all Notions.readonly_service
                Notions.set_time eq_refl) as (H1 & _ & H3 & _).
  split; [exact H1|]. rewrite H3. reflexivity.
Defined.

(** X13 on a disk without a file. *)
Lemma start_without_file_witness :
  Scheduler.file Notions.empty_disk = None
  /\ Scheduler.new_service accept_all Notions.empty_disk
     = Scheduler.MkService Scheduler.DEFAULT_SCHEDULE None Notions.empty_disk.
Proof.
  split; [reflexivity|].
  exact (start_without_file accept_all Notions.empty_disk (or_introl eq_refl)).
Defined.

(** X15 on [04:30], Mondays and Wednesdays. *)
Lemma cron_expression_of_time_witness :
  Notions.no_colon "04" = true /\ Notions.no_colon "30" = true
  /\ Scheduler.cron_expression (Scheduler.MkSchedule true [1; 3]%Z "04:30")
     = "30 04 * * 1,3"%string.
Proof.
  split; [reflexivity|]. split; [reflexivity|].
  exact (cron_expression_of_time true [1; 3]%Z "04" "30" ""
           eq_refl eq_refl (or_introl eq_refl)).
Defined.

(** X16 on [0430]. *)
Lemma cron_expression_without_colon_witness :
  Notions.no_colon "0430" = true
  /\ Scheduler.cron_expression (Scheduler.MkSchedule true [1]%Z "0430")
     = "undefined 0430 * * 1"%string.
Proof.
  split; [reflexivity|].
  exact (cron_expression_without_colon true [1]%Z "0430" eq_refl).
Defined.

(** X17 on two messages into the stores as created. *)
Lemma history_is_last_60_witness :
  (length (Client.temperatureHistory (Client.system fresh_stores)) <= 60)%nat
  /\ length (Client.temperatureHistory (Client.system
       (Client.run no_coercion fresh_stores
          (Notions.status_events [("12:00:00"%string, cores_and_cpum);
                                  ("12:00:01"%string, empty_message)])))) = 2%nat.
Proof.
  split; [vm_compute; lia|].
  rewrite (proj1 (history_is_last_60 no_coercion fresh_stores
                    [("12:00:00"%string, cores_and_cpum);
                     ("12:00:01"%string, empty_message)]
                    (Nat.le_0_l 60))).
  reflexivity.
Defined.

(** X19 on cores at 40.2 and 40.4: the mean, 40.3, rounds to 40, which is
    between 40 and 41 and below both cores. *)
Lemma message_mean_between_witness :
  Client.q_cpu0 Notions.fractional_cores = Some (201 # 5)%Q
  /\ Notions.between_Q 40 41 [(201 # 5)%Q; (202 # 5)%Q]
  /\ Client.message_cpuM_Q Notions.fractional_cores = Some (inject_Z 40)
  /\ exists m, Client.message_cpuM_Q Notions.fractional_cores = Some (inject_Z m)
               /\ (40 <= m <= 41)%Z.
Proof.
  assert (Hb : Notions.between_Q 40 41 [(201 # 5)%Q; (202 # 5)%Q]).
  { unfold Notions.between_Q.
    repeat (constructor; [split; vm_compute; discriminate|]). constructor. }
  split; [reflexivity|]. split; [exact Hb|]. split; [vm_compute; reflexivity|].
  exact (proj2 message_mean_between Notions.fractional_cores (201 # 5)%Q
               40%Z 41%Z eq_refl Hb).
Defined.

(** X20 on the known snapshot, which has no sensor array. *)
Lemma fetch_agrees_with_reducer_witness :
  Notions.sensor_list known_info = []
  /\ Client.fetched_point no_coercion "12:00:00"
       (Client.merge_info known_info cores_and_cpum)
     = Notions.message_point "12:00:00" cores_and_cpum.
Proof.
  split; [reflexivity|].
  exact (fetch_agrees_with_reducer no_coercion "12:00:00" known_info
           cores_and_cpum eq_refl).
Defined.

(** X21 on CPU 50 and box 40: the fetch shows 45, the reducer 50. *)
Lemma fetch_averages_cpu_and_box_witness :
  Client.cpuM (Client.fetched_point no_coercion "12:00:00"
                 (normalizeSystemInfo no_coercion Notions.legacy_readings))
    = VNum 45
  /\ Client.cpuM (Notions.message_point "12:00:00" Notions.legacy_message) = VNum 50.
Proof.
  pose proof (fetch_averages_cpu_and_box no_coercion "12:00:00"
                Notions.legacy_readings 50%Z 40%Z Notions.legacy_message
                eq_refl eq_refl eq_refl eq_refl eq_refl eq_refl eq_refl)
    as (H1 & _ & H3 & _).
  split; [exact H1 | exact H3].
Defined.

(** X22: Wednesday taken out of Monday, Wednesday, Friday. *)
Lemma toggle_flips_one_day_witness :
  List.NoDup [1; 3; 5]%Z
  /\ List.NoDup (ScheduleModal.toggle 3%Z [1; 3; 5]%Z)
  /\ ScheduleModal.toggle 3%Z [1; 3; 5]%Z = [1; 5]%Z.
Proof.
  assert (H : List.NoDup [1; 3; 5]%Z).
  { repeat constructor; cbn; intuition discriminate. }
  split; [exact H|]. split; [|reflexivity].
  exact (proj2 (proj2 (toggle_flips_one_day 3%Z [1; 3; 5]%Z)) H).
Defined.

(** X25 on [v9]: arrays, no pagination. *)
Lemma capabilities_of_version_witness :
  (0 < 9)%Z
  /\ ApiCapabilities.detectApiCapabilities (Some "v9"%string)
     = ApiCapabilities.MkCapabilities "v9" true true false.
Proof.
  split; [reflexivity|].
  exact (capabilities_of_version 9%Z eq_refl).
Defined.

(** X26 without a version. *)
Lemma capabilities_ordered_witness :
  truthy_name None = None
  /\ ApiCapabilities.detectApiCapabilities None
     = ApiCapabilities.MkCapabilities "v4" false false false.
Proof.
  split; [reflexivity|].
  exact (proj2 (proj2 (capabilities_ordered None)) eq_refl).
Defined.
